(** * IAMAuthPolicy controller: a shallow embedding and its properties

    Source: [controllers/iamauthpolicy_controller.go].

    The controller is a sequential program that talks to three external
    parties: the Kubernetes client ([Get], [Update]), the Lattice lookup
    API ([FindServiceNetworkByK8sName], [FindServiceByK8sName]) and the
    IAM auth policy manager ([EnableSnIAMAuth], [Put], [Delete], ...).
    None of them lives in the controller file, so they are taken as a
    record of state-passing functions over an arbitrary world [W].  The
    controller itself is written in a small monad that threads the world,
    collects the trace of the external calls together with their results,
    and can panic (Go's run-time fault on an assignment into a nil map).
    Logging and the [context.Context] handed through to every call have
    no part in what the controller decides and are left out. *)

From Stdlib Require Import ZArith String List Bool.
From stdpp Require Import gmap strings list fin_maps.
Import ListNotations.
Local Open Scope string_scope.
Local Open Scope list_scope.
Local Open Scope Z_scope.

(** ** Durations ([time.Duration] is an int64 count of nanoseconds) *)

Definition Duration := Z.

Definition time_Nanosecond : Duration := 1.
Definition time_Microsecond : Duration := 1000 * time_Nanosecond.
Definition time_Millisecond : Duration := 1000 * time_Microsecond.
Definition time_Second : Duration := 1000 * time_Millisecond.
Definition time_Minute : Duration := 60 * time_Second.
Definition time_Hour : Duration := 60 * time_Minute.

(** ** [ctrl.Result] and [ctrl.Request] *)

Record Result : Type := mkResult {
  Requeue : bool;
  RequeueAfter : Duration
}.

(** [ctrl.Result{}] *)
Definition Result_zero : Result := mkResult false 0.

Record NamespacedName : Type := mkNamespacedName {
  nn_Namespace : string;
  nn_Name : string
}.

(** ** The reconciled object, [anv1alpha1.IAMAuthPolicy] *)

(** [metav1.Time]: an instant, counted from Go's zero time. *)
Definition Time := Z.

Record PolicyTargetReference : Type := mkTargetRef {
  Kind : string;
  Name : string
}.

Record IAMAuthPolicySpec : Type := mkSpec {
  Policy : string;
  TargetRef : PolicyTargetReference
}.

(** [Annotations] is a Go map: [None] is the nil map, which can be read
    but not assigned to.  [DeletionTimestamp] is a pointer: [None] is nil. *)
Record IAMAuthPolicy : Type := mkIAMAuthPolicy {
  Namespace : string;
  ObjName : string;
  DeletionTimestamp : option Time;
  Finalizers : list string;
  Annotations : option (gmap string string);
  Spec : IAMAuthPolicySpec
}.

(** [model.IAMAuthPolicy], the document handed to the policy manager. *)
Record model_IAMAuthPolicy : Type := mkModelPolicy {
  ResourceId : string;
  ModelPolicy : string
}.

(** [IsZero] on a pointer to [metav1.Time]: nil, or the zero instant. *)
Definition Time_IsZero (t : option Time) : bool :=
  match t with
  | None => true
  | Some x => x =? 0
  end.

(** ** Finalizer primitives of [controllerutil] *)

Definition ContainsFinalizer (o : IAMAuthPolicy) (finalizer : string) : bool :=
  existsb (String.eqb finalizer) (Finalizers o).

Definition SetFinalizers (o : IAMAuthPolicy) (f : list string) : IAMAuthPolicy :=
  mkIAMAuthPolicy (Namespace o) (ObjName o) (DeletionTimestamp o) f
                  (Annotations o) (Spec o).

Definition AddFinalizer (o : IAMAuthPolicy) (finalizer : string) : IAMAuthPolicy :=
  if existsb (String.eqb finalizer) (Finalizers o) then o
  else SetFinalizers o (Finalizers o ++ [finalizer]).

Definition RemoveFinalizer (o : IAMAuthPolicy) (finalizer : string) : IAMAuthPolicy :=
  SetFinalizers o (List.filter (fun e => negb (String.eqb finalizer e)) (Finalizers o)).

Definition authPolicyFinalizer : string := "iamauthpolicy.k8s.aws/resources".

Definition resourceIdAnnotation : string :=
  "application-networking.k8s.aws/resourceId".

(** [handleFinalizer]: the controller's gate on the cleanup marker.  It
    mutates the in-memory object only; nothing is sent to the store. *)
Definition handleFinalizer (k8sPolicy : IAMAuthPolicy) : IAMAuthPolicy :=
  if Time_IsZero (DeletionTimestamp k8sPolicy) then
    if negb (ContainsFinalizer k8sPolicy authPolicyFinalizer)
    then AddFinalizer k8sPolicy authPolicyFinalizer
    else k8sPolicy
  else
    if ContainsFinalizer k8sPolicy authPolicyFinalizer
    then RemoveFinalizer k8sPolicy authPolicyFinalizer
    else k8sPolicy.

(** ** Errors *)

(** Go's [error] values are opaque to the controller; the only questions
    it asks are [services.IsNotFoundError] and, through
    [client.IgnoreNotFound], [apierrors.IsNotFound]. *)
Class ErrorModel (error : Type) : Type := {
  services_IsNotFoundError : error -> bool;
  apierrors_IsNotFound : error -> bool
}.

(** [client.IgnoreNotFound] *)
Definition IgnoreNotFound {error} `{ErrorModel error} (err : error) : option error :=
  if apierrors_IsNotFound err then None else Some err.

(** ** External calls *)

(** One entry of the call trace: the call, its arguments and its result.
    A lookup answers with an error or an identifier; the other calls
    answer with [None] (nil) or an error. *)
Inductive event (error : Type) : Type :=
| EGet (req : NamespacedName) (r : error + IAMAuthPolicy)
| EUpdate (obj : IAMAuthPolicy) (r : option error)
| EFindServiceNetworkByK8sName (name : string) (r : error + string)
| EFindServiceByK8sName (name : string) (r : error + string)
| EEnableSnIAMAuth (snId : string) (r : option error)
| EDisableSnIAMAuth (snId : string) (r : option error)
| EEnableSvcIAMAuth (svcId : string) (r : option error)
| EDisableSvcIAMAuth (svcId : string) (r : option error)
| EPut (policy : model_IAMAuthPolicy) (r : option error)
| EDelete (resId : string) (r : option error).

Arguments EGet {error}.
Arguments EUpdate {error}.
Arguments EFindServiceNetworkByK8sName {error}.
Arguments EFindServiceByK8sName {error}.
Arguments EEnableSnIAMAuth {error}.
Arguments EDisableSnIAMAuth {error}.
Arguments EEnableSvcIAMAuth {error}.
Arguments EDisableSvcIAMAuth {error}.
Arguments EPut {error}.
Arguments EDelete {error}.

(** The error an external call answered with, if any. *)
Definition event_error {error} (e : event error) : option error :=
  match e with
  | EGet _ r => match r with inl err => Some err | inr _ => None end
  | EFindServiceNetworkByK8sName _ r | EFindServiceByK8sName _ r =>
      match r with inl err => Some err | inr _ => None end
  | EUpdate _ r | EEnableSnIAMAuth _ r | EDisableSnIAMAuth _ r
  | EEnableSvcIAMAuth _ r | EDisableSvcIAMAuth _ r | EPut _ r | EDelete _ r => r
  end.

Definition is_Update {error} (e : event error) : bool :=
  match e with EUpdate _ _ => true | _ => false end.

(** The identifier a lookup of the target resolver answered with. *)
Definition resolved_id {error} (e : event error) : option string :=
  match e with
  | EFindServiceNetworkByK8sName _ (inr id) | EFindServiceByK8sName _ (inr id) => Some id
  | _ => None
  end.

(** The resource a disable-auth call was made on. *)
Definition disabled_id {error} (e : event error) : option string :=
  match e with
  | EDisableSnIAMAuth id _ | EDisableSvcIAMAuth id _ => Some id
  | _ => None
  end.

(** Calls of the target resolver (the Lattice lookups). *)
Definition is_resolver_call {error} (e : event error) : bool :=
  match e with
  | EFindServiceNetworkByK8sName _ _ | EFindServiceByK8sName _ _ => true
  | _ => false
  end.

(** Calls of the auth state manager ([policyMgr]). *)
Definition is_policyMgr_call {error} (e : event error) : bool :=
  match e with
  | EEnableSnIAMAuth _ _ | EDisableSnIAMAuth _ _ | EEnableSvcIAMAuth _ _
  | EDisableSvcIAMAuth _ _ | EPut _ _ | EDelete _ _ => true
  | _ => false
  end.

(** Everything the controller file imports and calls.  The Lattice lookups
    answer with the identifier itself (the source dereferences
    [snInfo.SvcNetwork.Id] and [svcInfo.Id] of the answer). *)
Record Deps (error W : Type) : Type := mkDeps {
  client_Get : NamespacedName -> W -> (error + IAMAuthPolicy) * W;
  client_Update : IAMAuthPolicy -> W -> option error * W;
  FindServiceNetworkByK8sName : string -> W -> (error + string) * W;
  FindServiceByK8sName : string -> W -> (error + string) * W;
  EnableSnIAMAuth : string -> W -> option error * W;
  DisableSnIAMAuth : string -> W -> option error * W;
  EnableSvcIAMAuth : string -> W -> option error * W;
  DisableSvcIAMAuth : string -> W -> option error * W;
  policyMgr_Put : model_IAMAuthPolicy -> W -> option error * W;
  policyMgr_Delete : string -> W -> option error * W;
  (** [utils.LatticeServiceName], the naming convention of services *)
  LatticeServiceName : string -> string -> string
}.

Arguments client_Get {error W}.
Arguments client_Update {error W}.
Arguments FindServiceNetworkByK8sName {error W}.
Arguments FindServiceByK8sName {error W}.
Arguments EnableSnIAMAuth {error W}.
Arguments DisableSnIAMAuth {error W}.
Arguments EnableSvcIAMAuth {error W}.
Arguments DisableSvcIAMAuth {error W}.
Arguments policyMgr_Put {error W}.
Arguments policyMgr_Delete {error W}.
Arguments LatticeServiceName {error W}.

(** ** The monad of the controller *)

Inductive outcome (A : Type) : Type :=
| Returns (a : A)
| Panics.

Arguments Returns {A}.
Arguments Panics {A}.

(** A computation runs from a world and ends in an outcome, a world and
    the list of external calls it made, oldest first. *)
Definition M (error W A : Type) : Type := W -> outcome A * W * list (event error).

Definition ret {error W A} (a : A) : M error W A :=
  fun w => (Returns a, w, []).

Definition bind {error W A B} (m : M error W A) (f : A -> M error W B) : M error W B :=
  fun w =>
    match m w with
    | (Returns a, w1, t1) =>
        match f a w1 with
        | (r, w2, t2) => (r, w2, t1 ++ t2)
        end
    | (Panics, w1, t1) => (Panics, w1, t1)
    end.

Definition panic {error W A} : M error W A :=
  fun w => (Panics, w, []).

(** An external call, logged with its answer. *)
Definition call {error W R} (f : W -> R * W) (log : R -> event error) : M error W R :=
  fun w => match f w with (r, w1) => (Returns r, w1, [log r]) end.

Declare Scope ctl_scope.
Delimit Scope ctl_scope with ctl.
Notation "x <- c ;; k" := (bind c (fun x => k))
  (at level 100, c at next level, right associativity) : ctl_scope.

Definition outcome_of {A W T} (r : outcome A * W * T) : outcome A := fst (fst r).
Definition world_of {A W T} (r : outcome A * W * T) : W := snd (fst r).
Definition trace_of {A W T} (r : outcome A * W * T) : T := snd r.

(** [m[k] = v] on a Go map: a run-time panic when [m] is nil. *)
Definition map_assign {error W} (m : option (gmap string string)) (k v : string)
  : M error W (option (gmap string string)) :=
  match m with
  | None => panic
  | Some m => ret (Some (<[k := v]> m))
  end.

Definition SetAnnotations (o : IAMAuthPolicy) (a : option (gmap string string))
  : IAMAuthPolicy :=
  mkIAMAuthPolicy (Namespace o) (ObjName o) (DeletionTimestamp o) (Finalizers o)
                  a (Spec o).

(** ** The controller *)

Section Controller.
Context {error : Type} {EM : ErrorModel error} {W : Type}.
Variable c : Deps error W.

Local Open Scope ctl_scope.
Local Abbreviation Mc := (M error W).

Definition putPolicy (resId policy : string) : Mc (option error) :=
  let modelPolicy := mkModelPolicy resId policy in
  err <- call (policyMgr_Put c modelPolicy) (EPut modelPolicy) ;;
  ret err.

(** The lookups are taken to answer, when they answer without an error,
    with an identifier that is there: the nil case of the dereferences
    [*snInfo.SvcNetwork.Id] and [*svcInfo.Id] is outside this model. *)
Definition findSnId (k8sPolicy : IAMAuthPolicy) : Mc (string * option error) :=
  let tr := TargetRef (Spec k8sPolicy) in
  r <- call (FindServiceNetworkByK8sName c (Name tr))
            (EFindServiceNetworkByK8sName (Name tr)) ;;
  match r with
  | inl err => ret ("", Some err)
  | inr id => ret (id, None)
  end.

Definition findSvcId (k8sPolicy : IAMAuthPolicy) : Mc (string * option error) :=
  let tr := TargetRef (Spec k8sPolicy) in
  let svcName := LatticeServiceName c (Name tr) (Namespace k8sPolicy) in
  r <- call (FindServiceByK8sName c svcName) (EFindServiceByK8sName svcName) ;;
  match r with
  | inl err => ret ("", Some err)
  | inr id => ret (id, None)
  end.

Definition deleteGatewayPolicy (k8sPolicy : IAMAuthPolicy) : Mc (string * option error) :=
  found <- findSnId k8sPolicy ;;
  let '(snId, err) := found in
  match err with
  | Some err => ret ("", Some err)
  | None =>
    err <- call (policyMgr_Delete c snId) (EDelete snId) ;;
    match err with
    | Some err => ret ("", Some err)
    | None =>
      err <- call (DisableSnIAMAuth c snId) (EDisableSnIAMAuth snId) ;;
      match err with
      | Some err => ret ("", Some err)
      | None => ret (snId, None)
      end
    end
  end.

Definition upsertGatewayPolicy (k8sPolicy : IAMAuthPolicy) : Mc (string * option error) :=
  found <- findSnId k8sPolicy ;;
  let '(snId, err) := found in
  match err with
  | Some err => ret ("", Some err)
  | None =>
    err <- call (EnableSnIAMAuth c snId) (EEnableSnIAMAuth snId) ;;
    match err with
    | Some err => ret ("", Some err)
    | None =>
      err <- putPolicy snId (Policy (Spec k8sPolicy)) ;;
      match err with
      | Some err => ret ("", Some err)
      | None => ret (snId, None)
      end
    end
  end.

Definition deleteRoutePolicy (k8sPolicy : IAMAuthPolicy) : Mc (string * option error) :=
  found <- findSvcId k8sPolicy ;;
  let '(svcId, err) := found in
  match err with
  | Some err => ret ("", Some err)
  | None =>
    err <- call (policyMgr_Delete c svcId) (EDelete svcId) ;;
    match err with
    | Some err => ret ("", Some err)
    | None =>
      err <- call (DisableSvcIAMAuth c svcId) (EDisableSvcIAMAuth svcId) ;;
      match err with
      | Some err => ret ("", Some err)
      | None => ret (svcId, None)
      end
    end
  end.

Definition upsertRoutePolicy (k8sPolicy : IAMAuthPolicy) : Mc (string * option error) :=
  found <- findSvcId k8sPolicy ;;
  let '(svcId, err) := found in
  match err with
  | Some err => ret ("", Some err)
  | None =>
    err <- call (EnableSvcIAMAuth c svcId) (EEnableSvcIAMAuth svcId) ;;
    match err with
    | Some err => ret ("", Some err)
    | None =>
      err <- putPolicy svcId (Policy (Spec k8sPolicy)) ;;
      match err with
      | Some err => ret ("", Some err)
      | None => ret (svcId, None)
      end
    end
  end.

(** The [switch kind] of [Reconcile]: the pipeline assigned to
    [reconcileFunc], or [None] in the [default] branch. *)
Definition reconcileFunc (kind : string) (isDelete : bool)
  : option (IAMAuthPolicy -> Mc (string * option error)) :=
  if String.eqb kind "Gateway" then
    if isDelete then Some deleteGatewayPolicy else Some upsertGatewayPolicy
  else if String.eqb kind "HTTPRoute" || String.eqb kind "GRPCRoute" then
    if isDelete then Some deleteRoutePolicy else Some upsertRoutePolicy
  else None.

(** [Reconcile] from [isDelete := ...] on: the routing on the target
    kind, the pipeline, the requeue policy and the write-back. *)
Definition dispatch (k8sPolicy : IAMAuthPolicy) : Mc (Result * option error) :=
  let isDelete := negb (Time_IsZero (DeletionTimestamp k8sPolicy)) in
  let kind := Kind (TargetRef (Spec k8sPolicy)) in
  match reconcileFunc kind isDelete with
  | None => ret (mkResult false time_Hour, None)
  | Some reconcileFunc =>
    out <- reconcileFunc k8sPolicy ;;
    let '(latticeResourceId, err) := out in
    match err with
    | Some err =>
      if services_IsNotFoundError err
      then ret (mkResult false (time_Second * 30), None)
      else ret (Result_zero, Some err)
    | None =>
      annotations <- map_assign (Annotations k8sPolicy)
                                resourceIdAnnotation latticeResourceId ;;
      let k8sPolicy := SetAnnotations k8sPolicy annotations in
      err <- call (client_Update c k8sPolicy) (EUpdate k8sPolicy) ;;
      match err with
      | Some err => ret (Result_zero, Some err)
      | None => ret (Result_zero, None)
      end
    end
  end.

(** [Reconcile] after a successful [Get]: [handleFinalizer] works on the
    object in memory, then the rest of the function runs on it. *)
Definition reconcileFetched (k8sPolicy : IAMAuthPolicy) : Mc (Result * option error) :=
  let k8sPolicy := handleFinalizer k8sPolicy in
  dispatch k8sPolicy.

(** The four pipelines [reconcileFunc] chooses from. *)
Definition pipelines : list (IAMAuthPolicy -> Mc (string * option error)) :=
  [upsertGatewayPolicy; deleteGatewayPolicy; upsertRoutePolicy; deleteRoutePolicy].

Definition Reconcile (req : NamespacedName) : Mc (Result * option error) :=
  r <- call (client_Get c req) (EGet req) ;;
  match r with
  | inl err => ret (Result_zero, IgnoreNotFound err)
  | inr k8sPolicy => reconcileFetched k8sPolicy
  end.

End Controller.

(** ** The Lifecycle Gate as the specification words it *)

(** A state machine over the cleanup marker, with the deletion request as
    its input: (absent, false) goes to present, (present, true) goes to
    absent, every other state stays. *)
Inductive marker : Type := absent | present.

Definition gate (m : marker) (deletionRequested : bool) : marker :=
  match m, deletionRequested with
  | absent, false => present
  | present, true => absent
  | _, _ => m
  end.

Definition markerOf (o : IAMAuthPolicy) : marker :=
  if ContainsFinalizer o authPolicyFinalizer then present else absent.

Definition deletionRequested (o : IAMAuthPolicy) : bool :=
  negb (Time_IsZero (DeletionTimestamp o)).

(** ** The shape of a pipeline run *)

(** The four pipelines are a lookup followed by two calls on the
    identifier found.  [pipeline_run find first second out t] lists the
    runs such a pipeline can have: the result [out] it hands back and the
    calls [t] it made. *)
Inductive pipeline_run {error : Type}
  (find : error + string -> event error)
  (first second : string -> option error -> event error)
  : string * option error -> list (event error) -> Prop :=
| run_find_failed (e : error) :
    pipeline_run find first second ("", Some e) [find (inl e)]
| run_first_failed (id : string) (e : error) :
    pipeline_run find first second ("", Some e)
                 [find (inr id); first id (Some e)]
| run_second_failed (id : string) (e : error) :
    pipeline_run find first second ("", Some e)
                 [find (inr id); first id None; second id (Some e)]
| run_completed (id : string) :
    pipeline_run find first second (id, None)
                 [find (inr id); first id None; second id None].

(** Running a computation twice in succession. *)
Definition twice {error W A} (m : M error W A) : M error W A :=
  bind m (fun _ => m).

(** ** Writes, and what makes them overwrite-style *)

(** The calls that write to the cloud: the six operations of the policy
    manager. *)
Inductive request : Type :=
| ReqEnableSn (snId : string)
| ReqDisableSn (snId : string)
| ReqEnableSvc (svcId : string)
| ReqDisableSvc (svcId : string)
| ReqPut (policy : model_IAMAuthPolicy)
| ReqDelete (resId : string).

Definition perform {error W} (c : Deps error W) (r : request) : W -> option error * W :=
  match r with
  | ReqEnableSn snId => EnableSnIAMAuth c snId
  | ReqDisableSn snId => DisableSnIAMAuth c snId
  | ReqEnableSvc svcId => EnableSvcIAMAuth c svcId
  | ReqDisableSvc svcId => DisableSvcIAMAuth c svcId
  | ReqPut policy => policyMgr_Put c policy
  | ReqDelete resId => policyMgr_Delete c resId
  end.

(** The part of the state a write is about. *)
Inductive part : Type := AuthMode | PolicyDocument.

Definition part_of (r : request) : part :=
  match r with
  | ReqEnableSn _ | ReqDisableSn _ | ReqEnableSvc _ | ReqDisableSvc _ => AuthMode
  | ReqPut _ | ReqDelete _ => PolicyDocument
  end.

(** External parties with overwrite-style writes, over a world [W] that
    is the observable state.  The lookups only read, and what they answer
    does not depend on the writes; a write that is refused changes
    nothing; every write is idempotent; and a write overwrites its own
    part of the state, so that repeating it after an accepted write on
    another part changes nothing. *)
Record OverwriteStyle {error W : Type} (c : Deps error W) : Prop := {
  lookup_sn_reads :
    forall name w, snd (FindServiceNetworkByK8sName c name w) = w;
  lookup_svc_reads :
    forall name w, snd (FindServiceByK8sName c name w) = w;
  lookup_sn_stable :
    forall r name w,
      fst (FindServiceNetworkByK8sName c name (snd (perform c r w)))
      = fst (FindServiceNetworkByK8sName c name w);
  lookup_svc_stable :
    forall r name w,
      fst (FindServiceByK8sName c name (snd (perform c r w)))
      = fst (FindServiceByK8sName c name w);
  refused_changes_nothing :
    forall r w e, fst (perform c r w) = Some e -> snd (perform c r w) = w;
  write_idempotent :
    forall r w, snd (perform c r (snd (perform c r w))) = snd (perform c r w);
  write_overwrites :
    forall a b w,
      part_of a <> part_of b ->
      fst (perform c a w) = None ->
      fst (perform c b (snd (perform c a w))) = None ->
      snd (perform c a (snd (perform c b (snd (perform c a w)))))
      = snd (perform c b (snd (perform c a w)))
}.

(** The world two successive writes leave, the second being attempted
    only when the first was accepted. *)
Definition afterWrites {error W} (c : Deps error W) (a b : request) (w : W) : W :=
  match perform c a w with
  | (Some _, w1) => w1
  | (None, w1) => snd (perform c b w1)
  end.

(** ** A model of the external parties *)

Module Lattice.

Inductive error : Type :=
| K8sNotFound
| NotFound (what : string)
| Failure (msg : string).

#[global] Instance errorModel : ErrorModel error := {|
  services_IsNotFoundError e := match e with NotFound _ => true | _ => false end;
  apierrors_IsNotFound e := match e with K8sNotFound => true | _ => false end
|}.

(** The store of policy objects, the directory of service networks and
    of services (Kubernetes name to Lattice identifier), and the
    observable cloud state: the auth-mode toggle of every service
    network and service and the policy document attached to a
    resource. *)
Record World : Type := mkWorld {
  store : gmap (string * string) IAMAuthPolicy;
  serviceNetworks : gmap string string;
  services : gmap string string;
  snAuth : gmap string bool;
  svcAuth : gmap string bool;
  policies : gmap string string
}.

Definition cloudState (w : World)
  : gmap string bool * gmap string bool * gmap string string :=
  (snAuth w, svcAuth w, policies w).

Definition setStore (w : World) (s : gmap (string * string) IAMAuthPolicy) : World :=
  mkWorld s (serviceNetworks w) (services w) (snAuth w) (svcAuth w) (policies w).
Definition setSnAuth (w : World) (a : gmap string bool) : World :=
  mkWorld (store w) (serviceNetworks w) (services w) a (svcAuth w) (policies w).
Definition setSvcAuth (w : World) (a : gmap string bool) : World :=
  mkWorld (store w) (serviceNetworks w) (services w) (snAuth w) a (policies w).
Definition setPolicies (w : World) (p : gmap string string) : World :=
  mkWorld (store w) (serviceNetworks w) (services w) (snAuth w) (svcAuth w) p.

(** What a write does when it goes through. *)
Definition effect (r : request) (w : World) : World :=
  match r with
  | ReqEnableSn snId => setSnAuth w (<[snId := true]> (snAuth w))
  | ReqDisableSn snId => setSnAuth w (<[snId := false]> (snAuth w))
  | ReqEnableSvc svcId => setSvcAuth w (<[svcId := true]> (svcAuth w))
  | ReqDisableSvc svcId => setSvcAuth w (<[svcId := false]> (svcAuth w))
  | ReqPut policy =>
      setPolicies w (<[ResourceId policy := ModelPolicy policy]> (policies w))
  | ReqDelete resId => setPolicies w (delete resId (policies w))
  end.

(** Modelled from the spec: the Auth State Manager
    ([deploy.IAMAuthPolicyManager], whose code is not in the controller
    file).  Sections 4.4 and 5 of the
    specification make every operation an overwrite of the state it is
    keyed on (enable and disable set the auth-mode toggle, put and
    delete set or clear the attached document), "not a delta", and an
    operation that answers with an error has done nothing.  Which calls
    fail is decided by [fault], an arbitrary function of the call and of
    the world it is made in. *)
Definition write (fault : request -> World -> option error) (r : request)
  : World -> option error * World :=
  fun w =>
    match fault r w with
    | Some e => (Some e, w)
    | None => (None, effect r w)
    end.

(** Modelled from the spec: the Target Resolver's lookups
    ([FindServiceNetworkByK8sName] and [FindServiceByK8sName] of the
    Lattice client, not in the controller file) are pure reads of a
    directory by name and fail with a not-found error when the name is
    not there (section 4.2); the store's [Get] is the same on the store. *)
Definition lookup (dir : World -> gmap string string) (name : string)
  : World -> (error + string) * World :=
  fun w =>
    match dir w !! name with
    | Some id => (inr id, w)
    | None => (inl (NotFound name), w)
    end.

Definition get (req : NamespacedName) : World -> (error + IAMAuthPolicy) * World :=
  fun w =>
    match store w !! (nn_Namespace req, nn_Name req) with
    | Some obj => (inr obj, w)
    | None => (inl K8sNotFound, w)
    end.

(** The store's [Update] replaces an object that is there and answers
    with a not-found error otherwise. *)
Definition update (obj : IAMAuthPolicy) : World -> option error * World :=
  fun w =>
    match store w !! (Namespace obj, ObjName obj) with
    | Some _ => (None, setStore w (<[(Namespace obj, ObjName obj) := obj]> (store w)))
    | None => (Some K8sNotFound, w)
    end.

Definition deps (fault : request -> World -> option error)
                (serviceName : string -> string -> string) : Deps error World :=
  {| client_Get := get;
     client_Update := update;
     FindServiceNetworkByK8sName := lookup serviceNetworks;
     FindServiceByK8sName := lookup services;
     EnableSnIAMAuth snId := write fault (ReqEnableSn snId);
     DisableSnIAMAuth snId := write fault (ReqDisableSn snId);
     EnableSvcIAMAuth svcId := write fault (ReqEnableSvc svcId);
     DisableSvcIAMAuth svcId := write fault (ReqDisableSvc svcId);
     policyMgr_Put policy := write fault (ReqPut policy);
     policyMgr_Delete resId := write fault (ReqDelete resId);
     LatticeServiceName := serviceName |}.

(** *** Concrete worlds, used to run the controller *)

Definition noFault : request -> World -> option error := fun _ _ => None.

Definition dashName (name namespace : string) : string :=
  String.append name (String.append "-" namespace).

(** A provider that refuses every disable-auth call. *)
Definition failDisable : request -> World -> option error :=
  fun r _ =>
    match r with
    | ReqDisableSn _ | ReqDisableSvc _ => Some (Failure "throttled")
    | _ => None
    end.

Definition policyFor (kind name : string) (deleting : option Time)
           (finalizers : list string) (annotations : option (gmap string string))
  : IAMAuthPolicy :=
  {| Namespace := "default"; ObjName := "pol";
     DeletionTimestamp := deleting; Finalizers := finalizers;
     Annotations := annotations;
     Spec := {| Policy := "{}"; TargetRef := {| Kind := kind; Name := name |} |} |}.

Definition healthy : Deps error World := deps noFault dashName.
Definition noDisable : Deps error World := deps failDisable dashName.

(** A policy on a kind the controller does not support. *)
Definition servicePolicy : IAMAuthPolicy :=
  policyFor "Service" "gw1" None [] None.
(** A policy on a gateway that is in no directory. *)
Definition missingGateway : IAMAuthPolicy :=
  policyFor "Gateway" "gw2" None [] (Some ∅).
(** A freshly created policy on a gateway; it has no annotations. *)
Definition newGateway : IAMAuthPolicy :=
  policyFor "Gateway" "gw1" None [] None.
(** Policies under deletion that still carry the cleanup marker. *)
Definition deletedGateway : IAMAuthPolicy :=
  policyFor "Gateway" "gw1" (Some 5) [authPolicyFinalizer] (Some ∅).
Definition deletedRoute : IAMAuthPolicy :=
  policyFor "HTTPRoute" "gw1" (Some 5) [authPolicyFinalizer] (Some ∅).
(** The same, for an object that came without annotations. *)
Definition deletedRouteBare : IAMAuthPolicy :=
  policyFor "GRPCRoute" "gw1" (Some 5) [authPolicyFinalizer] None.

Definition request0 : NamespacedName :=
  {| nn_Namespace := "default"; nn_Name := "pol" |}.

Definition worldWith (obj : IAMAuthPolicy) : World :=
  {| store := {[ ("default", "pol") := obj ]};
     serviceNetworks := {[ "gw1" := "sn-123" ]};
     services := {[ "gw1-default" := "svc-456" ]};
     snAuth := ∅; svcAuth := ∅; policies := ∅ |}.

(** A gateway policy that already carries an annotation of its owner. *)
Definition annotatedGateway : IAMAuthPolicy :=
  policyFor "Gateway" "gw1" None [] (Some {[ "team" := "net" ]}).

(** A request for an object the store does not hold. *)
Definition requestGone : NamespacedName :=
  {| nn_Namespace := "default"; nn_Name := "gone" |}.

(** A gateway policy that another controller holds with a finalizer of
    its own and that carries an annotation. *)
Definition ownedGateway : IAMAuthPolicy :=
  policyFor "Gateway" "gw1" None ["other"] (Some {[ "team" := "net" ]}).

(** A gateway policy that already has the cleanup marker, next to the
    finalizer of another controller. *)
Definition markedGateway : IAMAuthPolicy :=
  policyFor "Gateway" "gw1" None [authPolicyFinalizer; "other"] (Some ∅).

(** A world in which the gateway's service network has auth on and a
    policy document attached. *)
Definition enforcedWorld (obj : IAMAuthPolicy) : World :=
  setPolicies (setSnAuth (worldWith obj) {[ "sn-123" := true ]})
              {[ "sn-123" := "{}" ]}.

End Lattice.

(** ** Idempotence of each write on its own *)

(** The conditions on the external parties, one by one. *)

(** The lookups only read. *)
Definition LookupsReadOnly {error W : Type} (c : Deps error W) : Prop :=
  (forall name w, snd (FindServiceNetworkByK8sName c name w) = w)
  /\ (forall name w, snd (FindServiceByK8sName c name w) = w).

(** No write changes what a lookup answers. *)
Definition LookupsStable {error W : Type} (c : Deps error W) : Prop :=
  (forall r name w,
      fst (FindServiceNetworkByK8sName c name (snd (perform c r w)))
      = fst (FindServiceNetworkByK8sName c name w))
  /\ (forall r name w,
         fst (FindServiceByK8sName c name (snd (perform c r w)))
         = fst (FindServiceByK8sName c name w)).

(** A write that is refused changes nothing. *)
Definition RefusedChangesNothing {error W : Type} (c : Deps error W) : Prop :=
  forall r w e, fst (perform c r w) = Some e -> snd (perform c r w) = w.

(** Doing a write again right after itself leaves the state it left. *)
Definition WritesIdempotent {error W : Type} (c : Deps error W) : Prop :=
  forall r w, snd (perform c r (snd (perform c r w))) = snd (perform c r w).

(** Doing a write again right after itself gives the same answer and
    leaves the state it left. *)
Definition WritesRepeatable {error W : Type} (c : Deps error W) : Prop :=
  forall r w, perform c r (snd (perform c r w))
              = (fst (perform c r w), snd (perform c r w)).

(** A write overwrites its own part of the state: done again after an
    accepted write on the other part, it changes nothing. *)
Definition WritesOverwrite {error W : Type} (c : Deps error W) : Prop :=
  forall a b w,
    part_of a <> part_of b ->
    fst (perform c a w) = None ->
    fst (perform c b (snd (perform c a w))) = None ->
    snd (perform c a (snd (perform c b (snd (perform c a w)))))
    = snd (perform c b (snd (perform c a w))).

(** External parties each of whose writes is idempotent, taken one by
    one, with lookups that only read and refusals that change nothing.
    Nothing is asked of a write repeated after another one. *)
Definition EachIdempotent {error W : Type} (c : Deps error W) : Prop :=
  LookupsReadOnly c /\ LookupsStable c /\ RefusedChangesNothing c
  /\ WritesRepeatable c.

(** A provider with one resource, whose state is the auth mode and the
    attached document.  Enable and disable set the auth mode, delete
    clears the document; put works only while auth is on: it attaches the
    document when there is none, drops the one that is there, and
    switches auth off.  No call is ever refused. *)
Module Flip.

Definition World : Type := (bool * option string)%type.

Definition enable (w : World) : option Lattice.error * World :=
  (None, (true, snd w)).

Definition disable (w : World) : option Lattice.error * World :=
  (None, (false, snd w)).

Definition put (policy : model_IAMAuthPolicy) (w : World)
  : option Lattice.error * World :=
  (None,
   if fst w
   then (false, match snd w with
                | None => Some (ModelPolicy policy)
                | Some _ => None
                end)
   else w).

Definition delete_ (w : World) : option Lattice.error * World :=
  (None, (fst w, None)).

Definition deps : Deps Lattice.error World :=
  {| client_Get req := fun w => (inl Lattice.K8sNotFound, w);
     client_Update obj := fun w => (None, w);
     FindServiceNetworkByK8sName name := fun w => (inr "sn-1", w);
     FindServiceByK8sName name := fun w => (inr "svc-1", w);
     EnableSnIAMAuth snId := enable;
     DisableSnIAMAuth snId := disable;
     EnableSvcIAMAuth svcId := enable;
     DisableSvcIAMAuth svcId := disable;
     policyMgr_Put policy := put policy;
     policyMgr_Delete resId := delete_;
     LatticeServiceName := fun name _ => name |}.

End Flip.

(** A provider whose enable-auth call, made while auth is off, takes
    effect and still answers with an error (a timeout after the fact).
    Every other call is a plain overwrite and is never refused. *)
Module Late.

Definition World : Type := (bool * option string)%type.

Definition enable (w : World) : option Lattice.error * World :=
  if fst w then (None, w) else (Some (Lattice.Failure "timeout"), (true, snd w)).

Definition disable (w : World) : option Lattice.error * World :=
  (None, (false, snd w)).

Definition put (policy : model_IAMAuthPolicy) (w : World)
  : option Lattice.error * World :=
  (None, (fst w, Some (ModelPolicy policy))).

Definition delete_ (w : World) : option Lattice.error * World :=
  (None, (fst w, None)).

Definition deps : Deps Lattice.error World :=
  {| client_Get req := fun w => (inl Lattice.K8sNotFound, w);
     client_Update obj := fun w => (None, w);
     FindServiceNetworkByK8sName name := fun w => (inr "sn-1", w);
     FindServiceByK8sName name := fun w => (inr "svc-1", w);
     EnableSnIAMAuth snId := enable;
     DisableSnIAMAuth snId := disable;
     EnableSvcIAMAuth svcId := enable;
     DisableSvcIAMAuth svcId := disable;
     policyMgr_Put policy := put policy;
     policyMgr_Delete resId := delete_;
     LatticeServiceName := fun name _ => name |}.

End Late.

(** A provider with two service networks whose lookup answers with the
    second one once auth is on for the first.  The state is the auth mode
    of the two; every write is a plain overwrite and is never refused. *)
Module Drift.

Definition World : Type := (bool * bool)%type.

Definition setAuth (v : bool) (id : string) (w : World)
  : option Lattice.error * World :=
  (None,
   if String.eqb id "sn-1" then (v, snd w)
   else if String.eqb id "sn-2" then (fst w, v)
   else w).

Definition find (w : World) : (Lattice.error + string) * World :=
  (inr (if fst w then "sn-2" else "sn-1"), w).

Definition deps : Deps Lattice.error World :=
  {| client_Get req := fun w => (inl Lattice.K8sNotFound, w);
     client_Update obj := fun w => (None, w);
     FindServiceNetworkByK8sName name := find;
     FindServiceByK8sName name := find;
     EnableSnIAMAuth := setAuth true;
     DisableSnIAMAuth := setAuth false;
     EnableSvcIAMAuth := setAuth true;
     DisableSvcIAMAuth := setAuth false;
     policyMgr_Put policy := fun w => (None, w);
     policyMgr_Delete resId := fun w => (None, w);
     LatticeServiceName := fun name _ => name |}.

End Drift.

(** ** Classes of external calls *)

(** The resource a call of the policy manager is made on. *)
Definition policyMgr_target {error} (e : event error) : option string :=
  match e with
  | EEnableSnIAMAuth id _ | EDisableSnIAMAuth id _
  | EEnableSvcIAMAuth id _ | EDisableSvcIAMAuth id _ | EDelete id _ => Some id
  | EPut policy _ => Some (ResourceId policy)
  | _ => None
  end.

Definition is_enable {error} (e : event error) : bool :=
  match e with
  | EEnableSnIAMAuth _ _ | EEnableSvcIAMAuth _ _ => true
  | _ => false
  end.

(** The resource a [Put] is made on. *)
Definition put_id {error} (e : event error) : option string :=
  match e with
  | EPut policy _ => Some (ResourceId policy)
  | _ => None
  end.

(** Calls that only the upsert pipelines make, and calls that only the
    delete pipelines make. *)
Definition is_upsert_call {error} (e : event error) : bool :=
  match e with
  | EEnableSnIAMAuth _ _ | EEnableSvcIAMAuth _ _ | EPut _ _ => true
  | _ => false
  end.

Definition is_cleanup_call {error} (e : event error) : bool :=
  match e with
  | EDisableSnIAMAuth _ _ | EDisableSvcIAMAuth _ _ | EDelete _ _ => true
  | _ => false
  end.

(** Calls about service networks, and calls about services. *)
Definition is_sn_call {error} (e : event error) : bool :=
  match e with
  | EFindServiceNetworkByK8sName _ _ | EEnableSnIAMAuth _ _
  | EDisableSnIAMAuth _ _ => true
  | _ => false
  end.

Definition is_svc_call {error} (e : event error) : bool :=
  match e with
  | EFindServiceByK8sName _ _ | EEnableSvcIAMAuth _ _
  | EDisableSvcIAMAuth _ _ => true
  | _ => false
  end.

Definition is_Get {error} (e : event error) : bool :=
  match e with EGet _ _ => true | _ => false end.

(** The API server stamping (or clearing) the deletion timestamp. *)
Definition SetDeletionTimestamp (o : IAMAuthPolicy) (t : option Time) : IAMAuthPolicy :=
  mkIAMAuthPolicy (Namespace o) (ObjName o) t (Finalizers o) (Annotations o) (Spec o).

(** * Properties *)

(** ** Strings and finalizer lists *)

Lemma existsb_eqb_app (f : string) (l : list string) :
  existsb (String.eqb f) (l ++ [f]) = true.
Proof.
  rewrite existsb_app. simpl. rewrite String.eqb_refl.
  now rewrite orb_true_r.
Qed.

Lemma existsb_eqb_filter (f : string) (l : list string) :
  existsb (String.eqb f) (List.filter (fun e => negb (String.eqb f e)) l) = false.
Proof.
  induction l as [|x l IH]; simpl; [reflexivity|].
  destruct (String.eqb f x) eqn:E; simpl; [exact IH|].
  now rewrite E, IH.
Qed.

(** ** [handleFinalizer] touches the finalizers only *)

Lemma handleFinalizer_DeletionTimestamp (o : IAMAuthPolicy) :
  DeletionTimestamp (handleFinalizer o) = DeletionTimestamp o.
Proof.
  unfold handleFinalizer, AddFinalizer, RemoveFinalizer, ContainsFinalizer.
  destruct (Time_IsZero _), (existsb _ _); reflexivity.
Qed.

Lemma handleFinalizer_Spec (o : IAMAuthPolicy) :
  Spec (handleFinalizer o) = Spec o.
Proof.
  unfold handleFinalizer, AddFinalizer, RemoveFinalizer, ContainsFinalizer.
  destruct (Time_IsZero _), (existsb _ _); reflexivity.
Qed.

Lemma handleFinalizer_Annotations (o : IAMAuthPolicy) :
  Annotations (handleFinalizer o) = Annotations o.
Proof.
  unfold handleFinalizer, AddFinalizer, RemoveFinalizer, ContainsFinalizer.
  destruct (Time_IsZero _), (existsb _ _); reflexivity.
Qed.

Lemma handleFinalizer_Namespace (o : IAMAuthPolicy) :
  Namespace (handleFinalizer o) = Namespace o.
Proof.
  unfold handleFinalizer, AddFinalizer, RemoveFinalizer, ContainsFinalizer.
  destruct (Time_IsZero _), (existsb _ _); reflexivity.
Qed.

Lemma handleFinalizer_cases (o : IAMAuthPolicy) :
  handleFinalizer o =
  match markerOf o, deletionRequested o with
  | absent, false => SetFinalizers o (Finalizers o ++ [authPolicyFinalizer])
  | present, true =>
      SetFinalizers o (List.filter (fun e => negb (String.eqb authPolicyFinalizer e))
                                   (Finalizers o))
  | _, _ => o
  end.
Proof.
  unfold handleFinalizer, markerOf, deletionRequested, AddFinalizer,
    RemoveFinalizer, ContainsFinalizer.
  destruct (Time_IsZero _), (existsb _ _) eqn:E; reflexivity.
Qed.

Lemma handleFinalizer_marker (o : IAMAuthPolicy) :
  markerOf (handleFinalizer o) = gate (markerOf o) (deletionRequested o).
Proof.
  rewrite handleFinalizer_cases.
  unfold markerOf, deletionRequested, ContainsFinalizer.
  generalize authPolicyFinalizer; intros f.
  destruct (existsb _ (Finalizers o)) eqn:E, (Time_IsZero _);
    cbn [negb gate SetFinalizers Finalizers];
    rewrite ?existsb_eqb_app, ?existsb_eqb_filter, ?E; reflexivity.
Qed.

Lemma handleFinalizer_idempotent (o : IAMAuthPolicy) :
  handleFinalizer (handleFinalizer o) = handleFinalizer o.
Proof.
  rewrite (handleFinalizer_cases (handleFinalizer o)).
  rewrite handleFinalizer_marker.
  unfold deletionRequested. rewrite handleFinalizer_DeletionTimestamp.
  destruct (markerOf o), (Time_IsZero _); reflexivity.
Qed.

(** C6.  [handleFinalizer] is the two-state gate of the specification: the
    marker after it is [gate] of the marker before and the deletion
    request; in state (absent, not deleting) it appends the marker, in
    state (present, deleting) it removes it, in the two other states the
    object comes back unchanged; it is idempotent; and [Reconcile] runs it
    on every object it fetched, before the routing on the target kind
    ([dispatch]) sees the object. *)
Theorem handleFinalizer_is_the_gate :
  forall o : IAMAuthPolicy,
    markerOf (handleFinalizer o) = gate (markerOf o) (deletionRequested o)
    /\ handleFinalizer o =
       match markerOf o, deletionRequested o with
       | absent, false => SetFinalizers o (Finalizers o ++ [authPolicyFinalizer])
       | present, true =>
           SetFinalizers o
             (List.filter (fun e => negb (String.eqb authPolicyFinalizer e))
                          (Finalizers o))
       | _, _ => o
       end
    /\ handleFinalizer (handleFinalizer o) = handleFinalizer o
    /\ forall (error W : Type) (EM : ErrorModel error) (c : Deps error W)
              (req : NamespacedName),
         Reconcile c req =
         bind (call (client_Get c req) (EGet req))
              (fun r => match r with
                        | inl err => ret (Result_zero, IgnoreNotFound err)
                        | inr fetched => dispatch c (handleFinalizer fetched)
                        end).
Proof.
  intros o. split; [apply handleFinalizer_marker|].
  split; [apply handleFinalizer_cases|].
  split; [apply handleFinalizer_idempotent|].
  reflexivity.
Qed.

(** ** Runs of the pipelines *)

Ltac unfold_ctl :=
  unfold putPolicy, findSnId, findSvcId, twice, bind, call, ret, panic in *.

(** Case analysis on the answer of the next external call in the goal. *)
Ltac next_call :=
  match goal with
  | |- context [match ?f ?w with pair _ _ => _ end] =>
      let r := fresh "r" in
      let w' := fresh "w" in
      let E := fresh "E" in
      destruct (f w) as [r w'] eqn:E; destruct r; cbn [fst snd app]
  end.

Section Runs.
Context {error : Type} {EM : ErrorModel error} {W : Type}.
Variable c : Deps error W.

Lemma deleteGatewayPolicy_run (p : IAMAuthPolicy) (w : W) :
  exists out w' t,
    deleteGatewayPolicy c p w = (Returns out, w', t)
    /\ pipeline_run (EFindServiceNetworkByK8sName (Name (TargetRef (Spec p))))
                    EDelete EDisableSnIAMAuth out t.
Proof.
  unfold deleteGatewayPolicy; unfold_ctl.
  repeat next_call; do 3 eexists; (split; [reflexivity|]); constructor.
Qed.

Lemma upsertGatewayPolicy_run (p : IAMAuthPolicy) (w : W) :
  exists out w' t,
    upsertGatewayPolicy c p w = (Returns out, w', t)
    /\ pipeline_run (EFindServiceNetworkByK8sName (Name (TargetRef (Spec p))))
                    EEnableSnIAMAuth
                    (fun id => EPut (mkModelPolicy id (Policy (Spec p)))) out t.
Proof.
  unfold upsertGatewayPolicy; unfold_ctl.
  repeat next_call; do 3 eexists; (split; [reflexivity|]);
    apply (run_find_failed _ _ _) ||
    apply (run_first_failed _ _ _) ||
    apply (run_second_failed _ _ (fun id => EPut (mkModelPolicy id _))) ||
    apply (run_completed _ _ (fun id => EPut (mkModelPolicy id _))).
Qed.

Lemma deleteRoutePolicy_run (p : IAMAuthPolicy) (w : W) :
  exists out w' t,
    deleteRoutePolicy c p w = (Returns out, w', t)
    /\ pipeline_run
         (EFindServiceByK8sName
            (LatticeServiceName c (Name (TargetRef (Spec p))) (Namespace p)))
         EDelete EDisableSvcIAMAuth out t.
Proof.
  unfold deleteRoutePolicy; unfold_ctl.
  repeat next_call; do 3 eexists; (split; [reflexivity|]); constructor.
Qed.

Lemma upsertRoutePolicy_run (p : IAMAuthPolicy) (w : W) :
  exists out w' t,
    upsertRoutePolicy c p w = (Returns out, w', t)
    /\ pipeline_run
         (EFindServiceByK8sName
            (LatticeServiceName c (Name (TargetRef (Spec p))) (Namespace p)))
         EEnableSvcIAMAuth
         (fun id => EPut (mkModelPolicy id (Policy (Spec p)))) out t.
Proof.
  unfold upsertRoutePolicy; unfold_ctl.
  repeat next_call; do 3 eexists; (split; [reflexivity|]);
    apply (run_find_failed _ _ _) ||
    apply (run_first_failed _ _ _) ||
    apply (run_second_failed _ _ (fun id => EPut (mkModelPolicy id _))) ||
    apply (run_completed _ _ (fun id => EPut (mkModelPolicy id _))).
Qed.

End Runs.

(** ** What a pipeline run implies *)

(** Splitting a trace of known length at one of its calls. *)
Ltac split_trace H pre :=
  repeat (destruct pre as [|? pre]; cbn [app] in H;
          [injection H as H; subst|injection H as ? H; subst]);
  try (destruct pre; discriminate H).

Section PipelineRuns.
Context {error : Type}.
Variable find : error + string -> event error.
Variables first second : string -> option error -> event error.
Hypothesis find_failed : forall e, event_error (find (inl e)) = Some e.
Hypothesis find_found : forall id, event_error (find (inr id)) = None.
Hypothesis first_error : forall id r, event_error (first id r) = r.
Hypothesis second_error : forall id r, event_error (second id r) = r.

(** A call that answers with an error is the last call of the run, every
    call before it went through, and the run hands back that error with
    the empty identifier. *)
Lemma pipeline_run_error_is_last out t :
  pipeline_run find first second out t ->
  forall pre ev post e,
    t = pre ++ ev :: post ->
    event_error ev = Some e ->
    post = [] /\ out = ("", Some e)
    /\ Forall (fun x => event_error x = None) pre.
Proof.
  intros Hrun pre ev post e Ht Hev.
  destruct Hrun; split_trace Ht pre;
    rewrite ?find_failed, ?find_found, ?first_error, ?second_error in Hev;
    try discriminate Hev; try (injection Hev as ->);
    (split; [reflexivity|split; [reflexivity|]]);
    repeat constructor; auto.
Qed.

End PipelineRuns.

(** ** Runs of [dispatch] and [Reconcile] *)

Section ReconcileRuns.
Context {error : Type} {EM : ErrorModel error} {W : Type}.
Variable c : Deps error W.

Lemma reconcileFunc_unsupported (kind : string) (isDelete : bool) :
  kind <> "Gateway" -> kind <> "HTTPRoute" -> kind <> "GRPCRoute" ->
  reconcileFunc c kind isDelete = None.
Proof.
  intros H1 H2 H3. unfold reconcileFunc.
  apply String.eqb_neq in H1, H2, H3. now rewrite H1, H2, H3.
Qed.

Lemma reconcileFunc_pipelines (kind : string) (isDelete : bool) f :
  reconcileFunc c kind isDelete = Some f -> In f (pipelines c).
Proof.
  unfold reconcileFunc, pipelines.
  destruct (String.eqb kind "Gateway"), (String.eqb kind "HTTPRoute" || String.eqb kind "GRPCRoute"), isDelete;
    intros H; inversion H; simpl; auto.
Qed.

Lemma reconcileFunc_delete (kind : string) f :
  reconcileFunc c kind true = Some f ->
  f = deleteGatewayPolicy c \/ f = deleteRoutePolicy c.
Proof.
  unfold reconcileFunc.
  destruct (String.eqb kind "Gateway"), (String.eqb kind "HTTPRoute" || String.eqb kind "GRPCRoute");
    intros H; inversion H; auto.
Qed.

Lemma pipelines_return f (p : IAMAuthPolicy) (w : W) :
  In f (pipelines c) -> exists out w' t, f p w = (Returns out, w', t).
Proof.
  intros [<-|[<-|[<-|[<-|[]]]]].
  - destruct (upsertGatewayPolicy_run c p w) as (out & w' & t & H & _); eauto.
  - destruct (deleteGatewayPolicy_run c p w) as (out & w' & t & H & _); eauto.
  - destruct (upsertRoutePolicy_run c p w) as (out & w' & t & H & _); eauto.
  - destruct (deleteRoutePolicy_run c p w) as (out & w' & t & H & _); eauto.
Qed.

Lemma dispatch_unsupported (p : IAMAuthPolicy) (w : W) :
  reconcileFunc c (Kind (TargetRef (Spec p))) (deletionRequested p) = None ->
  dispatch c p w = (Returns (mkResult false time_Hour, None), w, []).
Proof.
  unfold dispatch, deletionRequested. intros ->. reflexivity.
Qed.

Lemma dispatch_pipeline_error (p : IAMAuthPolicy) (w w2 : W) f id e t :
  reconcileFunc c (Kind (TargetRef (Spec p))) (deletionRequested p) = Some f ->
  f p w = (Returns (id, Some e), w2, t) ->
  dispatch c p w =
  (Returns (if services_IsNotFoundError e
            then (mkResult false (time_Second * 30), None)
            else (Result_zero, Some e)), w2, t).
Proof.
  unfold dispatch, deletionRequested. intros -> Hf.
  unfold bind. rewrite Hf.
  destruct (services_IsNotFoundError e); unfold ret; now rewrite app_nil_r.
Qed.

Lemma dispatch_nil_annotations (p : IAMAuthPolicy) (w w2 : W) f id t :
  reconcileFunc c (Kind (TargetRef (Spec p))) (deletionRequested p) = Some f ->
  f p w = (Returns (id, None), w2, t) ->
  Annotations p = None ->
  dispatch c p w = (Panics, w2, t).
Proof.
  unfold dispatch, deletionRequested. intros -> Hf Ha.
  unfold bind. rewrite Hf, Ha. unfold map_assign, panic.
  now rewrite app_nil_r.
Qed.

Lemma dispatch_persist (p : IAMAuthPolicy) (w w2 w3 : W) f id t m r :
  reconcileFunc c (Kind (TargetRef (Spec p))) (deletionRequested p) = Some f ->
  f p w = (Returns (id, None), w2, t) ->
  Annotations p = Some m ->
  client_Update c (SetAnnotations p (Some (<[resourceIdAnnotation := id]> m))) w2
  = (r, w3) ->
  dispatch c p w =
  (Returns (Result_zero, r), w3,
   t ++ [EUpdate (SetAnnotations p (Some (<[resourceIdAnnotation := id]> m))) r]).
Proof.
  unfold dispatch, deletionRequested. intros -> Hf Ha Hu.
  unfold bind. rewrite Hf, Ha. unfold map_assign, ret, call.
  rewrite Hu. destruct r; reflexivity.
Qed.

Lemma Reconcile_fetched (req : NamespacedName) (w w1 : W) (p : IAMAuthPolicy) :
  client_Get c req w = (inr p, w1) ->
  Reconcile c req w =
  match dispatch c (handleFinalizer p) w1 with
  | (r, w2, t) => (r, w2, EGet req (inr p) :: t)
  end.
Proof.
  intros Hget. unfold Reconcile, bind, call. rewrite Hget.
  unfold reconcileFetched.
  destruct (dispatch c (handleFinalizer p) w1) as [[r w2] t]. reflexivity.
Qed.

Lemma deletionRequested_handleFinalizer (p : IAMAuthPolicy) :
  deletionRequested (handleFinalizer p) = deletionRequested p.
Proof.
  unfold deletionRequested. now rewrite handleFinalizer_DeletionTimestamp.
Qed.

End ReconcileRuns.

(** ** The requeue policy *)

(** C3.  When the fetched policy's target kind is none of Gateway,
    HTTPRoute and GRPCRoute, [Reconcile] returns a result asking for a
    requeue after exactly one hour (3600 * 10^9 ns) with a nil error; the
    only external call of the run is the [Get], so neither the target
    resolver nor the policy manager is invoked. *)
Theorem Reconcile_unsupported_kind
  {error : Type} {EM : ErrorModel error} {W : Type} (c : Deps error W)
  (req : NamespacedName) (w w1 : W) (p : IAMAuthPolicy) :
  client_Get c req w = (inr p, w1) ->
  Kind (TargetRef (Spec p)) <> "Gateway" ->
  Kind (TargetRef (Spec p)) <> "HTTPRoute" ->
  Kind (TargetRef (Spec p)) <> "GRPCRoute" ->
  Reconcile c req w
  = (Returns (mkResult false (3600 * 1000000000), None), w1, [EGet req (inr p)])
  /\ Forall (fun ev => is_resolver_call ev = false /\ is_policyMgr_call ev = false)
            (trace_of (Reconcile c req w)).
Proof.
  intros Hget H1 H2 H3.
  assert (Hrun : Reconcile c req w
                 = (Returns (mkResult false (3600 * 1000000000), None), w1,
                    [EGet req (inr p)])).
  { rewrite (Reconcile_fetched c req w w1 p Hget).
    rewrite dispatch_unsupported; [reflexivity|].
    rewrite handleFinalizer_Spec.
    now apply reconcileFunc_unsupported. }
  split; [exact Hrun|].
  rewrite Hrun. repeat constructor.
Qed.

(** C4.  When the selected pipeline hands back an error, [Reconcile]
    returns a requeue after exactly 30 seconds (30 * 10^9 ns) with a nil
    error if [services.IsNotFoundError] holds of it, whichever step it
    came from, and otherwise returns the zero result (no requeue delay)
    together with that same error. *)
Theorem Reconcile_pipeline_error
  {error : Type} {EM : ErrorModel error} {W : Type} (c : Deps error W)
  (req : NamespacedName) (w w1 w2 : W) (p : IAMAuthPolicy)
  f (id : string) (e : error) (t : list (event error)) :
  client_Get c req w = (inr p, w1) ->
  reconcileFunc c (Kind (TargetRef (Spec p))) (deletionRequested p) = Some f ->
  f (handleFinalizer p) w1 = (Returns (id, Some e), w2, t) ->
  Reconcile c req w
  = (Returns (if services_IsNotFoundError e
              then (mkResult false (30 * 1000000000), None)
              else (mkResult false 0, Some e)),
     w2, EGet req (inr p) :: t).
Proof.
  intros Hget Hsel Hf.
  rewrite (Reconcile_fetched c req w w1 p Hget).
  rewrite (dispatch_pipeline_error c (handleFinalizer p) w1 w2 f id e t);
    [reflexivity| |exact Hf].
  now rewrite handleFinalizer_Spec, deletionRequested_handleFinalizer.
Qed.

Lemma Reconcile_unsupported_kind_witness :
  client_Get Lattice.healthy Lattice.request0 (Lattice.worldWith Lattice.servicePolicy)
  = (inr Lattice.servicePolicy, Lattice.worldWith Lattice.servicePolicy)
  /\ Kind (TargetRef (Spec Lattice.servicePolicy)) <> "Gateway"
  /\ Kind (TargetRef (Spec Lattice.servicePolicy)) <> "HTTPRoute"
  /\ Kind (TargetRef (Spec Lattice.servicePolicy)) <> "GRPCRoute"
  /\ Reconcile Lattice.healthy Lattice.request0 (Lattice.worldWith Lattice.servicePolicy)
     = (Returns (mkResult false 3600000000000, None),
        Lattice.worldWith Lattice.servicePolicy,
        [EGet Lattice.request0 (inr Lattice.servicePolicy)]).
Proof.
  assert (Hget : client_Get Lattice.healthy Lattice.request0
                   (Lattice.worldWith Lattice.servicePolicy)
                 = (inr Lattice.servicePolicy, Lattice.worldWith Lattice.servicePolicy))
    by reflexivity.
  assert (H1 : Kind (TargetRef (Spec Lattice.servicePolicy)) <> "Gateway")
    by discriminate.
  assert (H2 : Kind (TargetRef (Spec Lattice.servicePolicy)) <> "HTTPRoute")
    by discriminate.
  assert (H3 : Kind (TargetRef (Spec Lattice.servicePolicy)) <> "GRPCRoute")
    by discriminate.
  repeat (split; [assumption|]).
  exact (proj1 (Reconcile_unsupported_kind _ _ _ _ _ Hget H1 H2 H3)).
Defined.

(** The gateway "gw2" is in no directory: the lookup of the upsert
    pipeline fails with a not-found error and the reconcile is requeued
    after 30 seconds. *)
Lemma Reconcile_pipeline_error_witness :
  client_Get Lattice.healthy Lattice.request0 (Lattice.worldWith Lattice.missingGateway)
  = (inr Lattice.missingGateway, Lattice.worldWith Lattice.missingGateway)
  /\ reconcileFunc Lattice.healthy (Kind (TargetRef (Spec Lattice.missingGateway)))
                   (deletionRequested Lattice.missingGateway)
     = Some (upsertGatewayPolicy Lattice.healthy)
  /\ upsertGatewayPolicy Lattice.healthy (handleFinalizer Lattice.missingGateway)
                         (Lattice.worldWith Lattice.missingGateway)
     = (Returns ("", Some (Lattice.NotFound "gw2")),
        Lattice.worldWith Lattice.missingGateway,
        [EFindServiceNetworkByK8sName "gw2" (inl (Lattice.NotFound "gw2"))])
  /\ Reconcile Lattice.healthy Lattice.request0 (Lattice.worldWith Lattice.missingGateway)
     = (Returns (mkResult false 30000000000, None),
        Lattice.worldWith Lattice.missingGateway,
        [EGet Lattice.request0 (inr Lattice.missingGateway);
         EFindServiceNetworkByK8sName "gw2" (inl (Lattice.NotFound "gw2"))]).
Proof.
  assert (Hget : client_Get Lattice.healthy Lattice.request0
                   (Lattice.worldWith Lattice.missingGateway)
                 = (inr Lattice.missingGateway, Lattice.worldWith Lattice.missingGateway))
    by reflexivity.
  assert (Hsel : reconcileFunc Lattice.healthy
                   (Kind (TargetRef (Spec Lattice.missingGateway)))
                   (deletionRequested Lattice.missingGateway)
                 = Some (upsertGatewayPolicy Lattice.healthy)) by reflexivity.
  assert (Hf : upsertGatewayPolicy Lattice.healthy (handleFinalizer Lattice.missingGateway)
                 (Lattice.worldWith Lattice.missingGateway)
               = (Returns ("", Some (Lattice.NotFound "gw2")),
                  Lattice.worldWith Lattice.missingGateway,
                  [EFindServiceNetworkByK8sName "gw2" (inl (Lattice.NotFound "gw2"))]))
    by reflexivity.
  repeat (split; [assumption|]).
  exact (Reconcile_pipeline_error _ _ _ _ _ _ _ _ _ _ Hget Hsel Hf).
Defined.

(** ** Call order inside the pipelines *)

Lemma app_single_split {A : Type} (P : A -> bool) (t : list A) (u : A) :
  Forall (fun x => P x = false) t ->
  forall pre v post,
    P v = true -> t ++ [u] = pre ++ v :: post ->
    pre = t /\ v = u /\ post = [].
Proof.
  induction 1 as [|a t Ha Ht IH]; intros pre v post Hv Heq.
  - destruct pre as [|b pre]; cbn [app] in Heq.
    + injection Heq as -> <-. auto.
    + injection Heq as _ Heq. destruct pre; discriminate Heq.
  - destruct pre as [|b pre]; cbn [app] in Heq.
    + injection Heq as -> _. congruence.
    + injection Heq as <- Heq.
      destruct (IH pre v post Hv Heq) as (-> & -> & ->). auto.
Qed.

Lemma Forall_false_no_split {A : Type} (P : A -> bool) (t : list A) :
  Forall (fun x => P x = false) t ->
  forall pre v post, P v = true -> t <> pre ++ v :: post.
Proof.
  intros Ht pre v post Hv ->.
  apply Forall_app in Ht as [_ Ht].
  apply Forall_cons_1 in Ht as [Ht _]. congruence.
Qed.

Section PipelineCalls.
Context {error : Type}.
Variable find : error + string -> event error.
Variables first second : string -> option error -> event error.

(** No call of a pipeline is the store's [Update]. *)
Lemma pipeline_run_no_update out t :
  (forall r, is_Update (find r) = false) ->
  (forall id r, is_Update (first id r) = false) ->
  (forall id r, is_Update (second id r) = false) ->
  pipeline_run find first second out t ->
  Forall (fun ev => is_Update ev = false) t.
Proof.
  intros Hfind Hfirst Hsecond Hrun.
  destruct Hrun; repeat constructor; auto.
Qed.

(** In a pipeline whose last step is the disable-auth call, that call
    comes third, after a lookup that found the resource and a first step
    that went through on it. *)
Lemma pipeline_run_disable_last out t :
  (forall r, disabled_id (find r) = None) ->
  (forall id r, disabled_id (first id r) = None) ->
  (forall id r, disabled_id (second id r) = Some id) ->
  pipeline_run find first second out t ->
  forall pre ev post id,
    t = pre ++ ev :: post ->
    disabled_id ev = Some id ->
    pre = [find (inr id); first id None] /\ post = [].
Proof.
  intros Hfind Hfirst Hsecond Hrun pre ev post id' Ht Hev.
  destruct Hrun; split_trace Ht pre;
    rewrite ?Hfind, ?Hfirst, ?Hsecond in Hev;
    try discriminate Hev; injection Hev as ->; auto.
Qed.

End PipelineCalls.

(** C5.  In both delete pipelines a disable-auth call on a resource is
    the third and last call of the run: before it come exactly the lookup
    that resolved the target to that resource and the detach ([Delete])
    on the same resource, which answered without an error. *)
Theorem delete_detaches_before_disabling
  {error : Type} {EM : ErrorModel error} {W : Type} (c : Deps error W)
  f (p : IAMAuthPolicy) (w : W) (pre : list (event error)) (ev : event error)
  (post : list (event error)) (id : string) :
  f = deleteGatewayPolicy c \/ f = deleteRoutePolicy c ->
  trace_of (f p w) = pre ++ ev :: post ->
  disabled_id ev = Some id ->
  exists find_ev,
    resolved_id find_ev = Some id
    /\ pre = [find_ev; EDelete id None]
    /\ post = [].
Proof.
  intros [-> | ->] Ht Hev.
  - destruct (deleteGatewayPolicy_run c p w) as (out & w' & t & Hrun & Hshape).
    rewrite Hrun in Ht. cbn [trace_of snd] in Ht.
    destruct (pipeline_run_disable_last
                (EFindServiceNetworkByK8sName (Name (TargetRef (Spec p))))
                EDelete EDisableSnIAMAuth out t
                (fun _ => eq_refl) (fun _ _ => eq_refl) (fun _ _ => eq_refl)
                Hshape pre ev post id Ht Hev) as [-> ->].
    eexists. split; [|split; reflexivity]. reflexivity.
  - destruct (deleteRoutePolicy_run c p w) as (out & w' & t & Hrun & Hshape).
    rewrite Hrun in Ht. cbn [trace_of snd] in Ht.
    destruct (pipeline_run_disable_last
                (EFindServiceByK8sName
                   (LatticeServiceName c (Name (TargetRef (Spec p))) (Namespace p)))
                EDelete EDisableSvcIAMAuth out t
                (fun _ => eq_refl) (fun _ _ => eq_refl) (fun _ _ => eq_refl)
                Hshape pre ev post id Ht Hev) as [-> ->].
    eexists. split; [|split; reflexivity]. reflexivity.
Qed.

Lemma delete_detaches_before_disabling_witness :
  (deleteGatewayPolicy Lattice.healthy = deleteGatewayPolicy Lattice.healthy
   \/ deleteGatewayPolicy Lattice.healthy = deleteRoutePolicy Lattice.healthy)
  /\ trace_of (deleteGatewayPolicy Lattice.healthy Lattice.deletedGateway
                 (Lattice.worldWith Lattice.deletedGateway))
     = [EFindServiceNetworkByK8sName "gw1" (inr "sn-123"); EDelete "sn-123" None]
       ++ EDisableSnIAMAuth "sn-123" None :: []
  /\ disabled_id (EDisableSnIAMAuth (error := Lattice.error) "sn-123" None)
     = Some "sn-123"
  /\ exists find_ev : event Lattice.error,
       resolved_id find_ev = Some "sn-123"
       /\ [EFindServiceNetworkByK8sName "gw1" (inr "sn-123"); EDelete "sn-123" None]
          = [find_ev; EDelete "sn-123" None]
       /\ @nil (event Lattice.error) = [].
Proof.
  split; [left; reflexivity|].
  split; [reflexivity|].
  split; [reflexivity|].
  exact (delete_detaches_before_disabling Lattice.healthy
           (deleteGatewayPolicy Lattice.healthy) Lattice.deletedGateway
           (Lattice.worldWith Lattice.deletedGateway)
           [EFindServiceNetworkByK8sName "gw1" (inr "sn-123"); EDelete "sn-123" None]
           (EDisableSnIAMAuth "sn-123" None) [] "sn-123"
           (or_introl eq_refl) eq_refl eq_refl).
Defined.

(** C8.  In each of the four pipelines, a call that answers with an error
    is the last call of the run: no further step and no compensating call
    follows it, every call before it went through, and the pipeline
    returns the empty identifier together with that same error. *)
Theorem pipeline_aborts_at_first_error
  {error : Type} {EM : ErrorModel error} {W : Type} (c : Deps error W)
  f (p : IAMAuthPolicy) (w : W) (pre : list (event error)) (ev : event error)
  (post : list (event error)) (e : error) :
  In f (pipelines c) ->
  trace_of (f p w) = pre ++ ev :: post ->
  event_error ev = Some e ->
  post = []
  /\ Forall (fun x => event_error x = None) pre
  /\ outcome_of (f p w) = Returns ("", Some e).
Proof.
  intros Hf Ht Hev.
  assert (Hgen : exists find first second out w' t,
             f p w = (Returns out, w', t)
             /\ pipeline_run find first second out t
             /\ (forall e, event_error (find (inl e)) = Some e)
             /\ (forall id, event_error (find (inr id)) = None)
             /\ (forall id r, event_error (first id r) = r)
             /\ (forall id r, event_error (second id r) = r)).
  { destruct Hf as [<-|[<-|[<-|[<-|[]]]]].
    - destruct (upsertGatewayPolicy_run c p w) as (out & w' & t & Hrun & Hshape).
      do 6 eexists. split; [exact Hrun|]. split; [exact Hshape|].
      repeat split; reflexivity.
    - destruct (deleteGatewayPolicy_run c p w) as (out & w' & t & Hrun & Hshape).
      do 6 eexists. split; [exact Hrun|]. split; [exact Hshape|].
      repeat split; reflexivity.
    - destruct (upsertRoutePolicy_run c p w) as (out & w' & t & Hrun & Hshape).
      do 6 eexists. split; [exact Hrun|]. split; [exact Hshape|].
      repeat split; reflexivity.
    - destruct (deleteRoutePolicy_run c p w) as (out & w' & t & Hrun & Hshape).
      do 6 eexists. split; [exact Hrun|]. split; [exact Hshape|].
      repeat split; reflexivity. }
  destruct Hgen as (find & first & second & out & w' & t & Hrun & Hshape
                    & H1 & H2 & H3 & H4).
  rewrite Hrun in Ht |- *. cbn [trace_of outcome_of fst snd] in Ht |- *.
  destruct (pipeline_run_error_is_last find first second H1 H2 H3 H4 out t
              Hshape pre ev post e Ht Hev) as (-> & -> & Hpre).
  auto.
Qed.

(** The provider refuses the disable-auth call: the delete-gateway
    pipeline stops there, after the lookup and the detach went through. *)
Lemma pipeline_aborts_at_first_error_witness :
  In (deleteGatewayPolicy Lattice.noDisable) (pipelines Lattice.noDisable)
  /\ trace_of (deleteGatewayPolicy Lattice.noDisable Lattice.deletedGateway
                 (Lattice.worldWith Lattice.deletedGateway))
     = [EFindServiceNetworkByK8sName "gw1" (inr "sn-123"); EDelete "sn-123" None]
       ++ EDisableSnIAMAuth "sn-123" (Some (Lattice.Failure "throttled")) :: []
  /\ event_error (EDisableSnIAMAuth "sn-123" (Some (Lattice.Failure "throttled")))
     = Some (Lattice.Failure "throttled")
  /\ @nil (event Lattice.error) = []
  /\ Forall (fun x => event_error x = None)
            [EFindServiceNetworkByK8sName (error := Lattice.error) "gw1" (inr "sn-123");
             EDelete "sn-123" None]
  /\ outcome_of (deleteGatewayPolicy Lattice.noDisable Lattice.deletedGateway
                   (Lattice.worldWith Lattice.deletedGateway))
     = Returns ("", Some (Lattice.Failure "throttled")).
Proof.
  assert (Hin : In (deleteGatewayPolicy Lattice.noDisable) (pipelines Lattice.noDisable))
    by (right; left; reflexivity).
  split; [exact Hin|].
  split; [reflexivity|].
  split; [reflexivity|].
  exact (pipeline_aborts_at_first_error Lattice.noDisable
           (deleteGatewayPolicy Lattice.noDisable) Lattice.deletedGateway
           (Lattice.worldWith Lattice.deletedGateway)
           [EFindServiceNetworkByK8sName "gw1" (inr "sn-123"); EDelete "sn-123" None]
           (EDisableSnIAMAuth "sn-123" (Some (Lattice.Failure "throttled"))) []
           (Lattice.Failure "throttled")
           Hin eq_refl eq_refl).
Defined.

(** ** The write-back *)

Section WriteBack.
Context {error : Type} {EM : ErrorModel error} {W : Type}.
Variable c : Deps error W.

Lemma pipelines_no_update f (p : IAMAuthPolicy) (w : W) :
  In f (pipelines c) ->
  Forall (fun ev => is_Update ev = false) (trace_of (f p w)).
Proof.
  intros [<-|[<-|[<-|[<-|[]]]]].
  - destruct (upsertGatewayPolicy_run c p w) as (out & w' & t & -> & Hshape).
    eapply pipeline_run_no_update; [..|exact Hshape]; reflexivity.
  - destruct (deleteGatewayPolicy_run c p w) as (out & w' & t & -> & Hshape).
    eapply pipeline_run_no_update; [..|exact Hshape]; reflexivity.
  - destruct (upsertRoutePolicy_run c p w) as (out & w' & t & -> & Hshape).
    eapply pipeline_run_no_update; [..|exact Hshape]; reflexivity.
  - destruct (deleteRoutePolicy_run c p w) as (out & w' & t & -> & Hshape).
    eapply pipeline_run_no_update; [..|exact Hshape]; reflexivity.
Qed.

(** [dispatch] calls [Update] at most once, as its last call, and only
    after the selected pipeline returned an identifier and no error. *)
Lemma dispatch_update (p : IAMAuthPolicy) (w : W) pre q r post :
  trace_of (dispatch c p w) = pre ++ EUpdate q r :: post ->
  exists f id m w2,
    reconcileFunc c (Kind (TargetRef (Spec p))) (deletionRequested p) = Some f
    /\ f p w = (Returns (id, None), w2, pre)
    /\ Annotations p = Some m
    /\ q = SetAnnotations p (Some (<[resourceIdAnnotation := id]> m))
    /\ post = [].
Proof.
  intros Ht.
  destruct (reconcileFunc c (Kind (TargetRef (Spec p))) (deletionRequested p))
    as [f|] eqn:Hsel.
  2:{ rewrite dispatch_unsupported in Ht by exact Hsel.
      cbn [trace_of snd] in Ht. destruct pre; discriminate Ht. }
  pose proof (reconcileFunc_pipelines c _ _ f Hsel) as Hin.
  pose proof (pipelines_no_update f p w Hin) as Hnoupd.
  destruct (pipelines_return c f p w Hin) as ([id [e|]] & w2 & t & Hf).
  - rewrite (dispatch_pipeline_error c p w w2 f id e t Hsel Hf) in Ht.
    rewrite Hf in Hnoupd. cbn [trace_of snd] in Ht, Hnoupd.
    exfalso. exact (Forall_false_no_split is_Update t Hnoupd pre (EUpdate q r) post eq_refl Ht).
  - rewrite Hf in Hnoupd. cbn [trace_of snd] in Hnoupd.
    destruct (Annotations p) as [m|] eqn:Ha.
    + destruct (client_Update c
                  (SetAnnotations p (Some (<[resourceIdAnnotation := id]> m))) w2)
        as [r' w3] eqn:Hu.
      rewrite (dispatch_persist c p w w2 w3 f id t m r' Hsel Hf Ha Hu) in Ht.
      cbn [trace_of snd] in Ht.
      destruct (app_single_split is_Update t _ Hnoupd pre (EUpdate q r) post eq_refl Ht)
        as (-> & Hq & ->).
      injection Hq as -> ->.
      exists f, id, m, w2. auto.
    + rewrite (dispatch_nil_annotations c p w w2 f id t Hsel Hf Ha) in Ht.
      cbn [trace_of snd] in Ht.
      exfalso. exact (Forall_false_no_split is_Update t Hnoupd pre (EUpdate q r) post eq_refl Ht).
Qed.

End WriteBack.

(** C1.  For a fetched policy under deletion that carries the cleanup
    marker, the only write to the store is the [Update] at the very end of
    [Reconcile]: the object it writes has the marker removed, and the
    calls before it are the [Get] and the complete delete pipeline of the
    policy's kind, each step answered without an error (the target
    resolved, the policy detached, auth disabled).  No run writes the
    removal with the cleanup unfinished. *)
Theorem marker_removed_only_after_cleanup
  {error : Type} {EM : ErrorModel error} {W : Type} (c : Deps error W)
  (req : NamespacedName) (w w1 : W) (p : IAMAuthPolicy)
  (pre : list (event error)) (q : IAMAuthPolicy) (r : option error)
  (post : list (event error)) :
  client_Get c req w = (inr p, w1) ->
  deletionRequested p = true ->
  markerOf p = present ->
  trace_of (Reconcile c req w) = pre ++ EUpdate q r :: post ->
  markerOf q = absent
  /\ post = []
  /\ exists id,
       pre = [EGet req (inr p);
              EFindServiceNetworkByK8sName (Name (TargetRef (Spec p))) (inr id);
              EDelete id None; EDisableSnIAMAuth id None]
       \/ pre = [EGet req (inr p);
                 EFindServiceByK8sName
                   (LatticeServiceName c (Name (TargetRef (Spec p))) (Namespace p))
                   (inr id);
                 EDelete id None; EDisableSvcIAMAuth id None].
Proof.
  intros Hget Hdel Hmark Ht.
  rewrite (Reconcile_fetched c req w w1 p Hget) in Ht.
  destruct (dispatch c (handleFinalizer p) w1) as [[r0 w2] t] eqn:Hd.
  cbn [trace_of snd] in Ht.
  destruct pre as [|a pre]; cbn [app] in Ht; [discriminate Ht|].
  injection Ht as <- Ht.
  assert (Ht' : trace_of (dispatch c (handleFinalizer p) w1)
                = pre ++ EUpdate q r :: post) by (now rewrite Hd).
  destruct (dispatch_update c _ _ _ _ _ _ Ht')
    as (f & id & m & w3 & Hsel & Hf & Ha & -> & ->).
  rewrite deletionRequested_handleFinalizer, Hdel in Hsel.
  split; [|split; [reflexivity|]].
  - change (markerOf (SetAnnotations (handleFinalizer p)
                        (Some (<[resourceIdAnnotation := id]> m))))
      with (markerOf (handleFinalizer p)).
    now rewrite handleFinalizer_marker, Hmark, Hdel.
  - exists id.
    destruct (reconcileFunc_delete c _ f Hsel) as [-> | ->].
    + destruct (deleteGatewayPolicy_run c (handleFinalizer p) w1)
        as (out & w' & t' & Hrun & Hshape).
      rewrite Hf in Hrun. injection Hrun as <- <- <-.
      rewrite handleFinalizer_Spec in Hshape.
      inversion Hshape; subst. left. reflexivity.
    + destruct (deleteRoutePolicy_run c (handleFinalizer p) w1)
        as (out & w' & t' & Hrun & Hshape).
      rewrite Hf in Hrun. injection Hrun as <- <- <-.
      rewrite handleFinalizer_Spec, handleFinalizer_Namespace in Hshape.
      inversion Hshape; subst. right. reflexivity.
Qed.

Lemma marker_removed_only_after_cleanup_witness :
  client_Get Lattice.healthy Lattice.request0 (Lattice.worldWith Lattice.deletedRoute)
  = (inr Lattice.deletedRoute, Lattice.worldWith Lattice.deletedRoute)
  /\ deletionRequested Lattice.deletedRoute = true
  /\ markerOf Lattice.deletedRoute = present
  /\ trace_of (Reconcile Lattice.healthy Lattice.request0
                 (Lattice.worldWith Lattice.deletedRoute))
     = [EGet Lattice.request0 (inr Lattice.deletedRoute);
        EFindServiceByK8sName "gw1-default" (inr "svc-456");
        EDelete "svc-456" None; EDisableSvcIAMAuth "svc-456" None]
       ++ EUpdate (SetAnnotations (handleFinalizer Lattice.deletedRoute)
                     (Some (<[resourceIdAnnotation := "svc-456"]> ∅))) None :: []
  /\ markerOf (SetAnnotations (handleFinalizer Lattice.deletedRoute)
                 (Some (<[resourceIdAnnotation := "svc-456"]> ∅))) = absent.
Proof.
  assert (Hget : client_Get Lattice.healthy Lattice.request0
                   (Lattice.worldWith Lattice.deletedRoute)
                 = (inr Lattice.deletedRoute, Lattice.worldWith Lattice.deletedRoute))
    by reflexivity.
  assert (Hdel : deletionRequested Lattice.deletedRoute = true) by reflexivity.
  assert (Hmark : markerOf Lattice.deletedRoute = present) by reflexivity.
  assert (Ht : trace_of (Reconcile Lattice.healthy Lattice.request0
                           (Lattice.worldWith Lattice.deletedRoute))
               = [EGet Lattice.request0 (inr Lattice.deletedRoute);
                  EFindServiceByK8sName "gw1-default" (inr "svc-456");
                  EDelete "svc-456" None; EDisableSvcIAMAuth "svc-456" None]
                 ++ EUpdate (SetAnnotations (handleFinalizer Lattice.deletedRoute)
                               (Some (<[resourceIdAnnotation := "svc-456"]> ∅))) None
                    :: [])
    by (vm_compute; reflexivity).
  repeat (split; [assumption|]).
  exact (proj1 (marker_removed_only_after_cleanup Lattice.healthy Lattice.request0
                  _ _ Lattice.deletedRoute _ _ _ _ Hget Hdel Hmark Ht)).
Defined.

(** C9.  When the target kind is unsupported, or when the selected
    pipeline hands back an error (surfaced to the caller or turned into the
    30-second requeue), no call of the run is an [Update]: the store is
    not written, so the marker change [handleFinalizer] made in memory is
    not persisted.  The world [Reconcile] leaves is the one the [Get] and
    the pipeline left. *)
Theorem no_update_on_failure
  {error : Type} {EM : ErrorModel error} {W : Type} (c : Deps error W)
  (req : NamespacedName) (w w1 : W) (p : IAMAuthPolicy) :
  client_Get c req w = (inr p, w1) ->
  (reconcileFunc c (Kind (TargetRef (Spec p))) (deletionRequested p) = None
   \/ exists f id e,
        reconcileFunc c (Kind (TargetRef (Spec p))) (deletionRequested p) = Some f
        /\ outcome_of (f (handleFinalizer p) w1) = Returns (id, Some e)) ->
  Forall (fun ev => is_Update ev = false) (trace_of (Reconcile c req w))
  /\ world_of (Reconcile c req w)
     = match reconcileFunc c (Kind (TargetRef (Spec p))) (deletionRequested p) with
       | None => w1
       | Some f => world_of (f (handleFinalizer p) w1)
       end.
Proof.
  intros Hget Hcase.
  rewrite (Reconcile_fetched c req w w1 p Hget).
  destruct Hcase as [Hsel | (f & id & e & Hsel & Hout)]; rewrite Hsel.
  - rewrite dispatch_unsupported
      by (now rewrite handleFinalizer_Spec, deletionRequested_handleFinalizer).
    split; [|reflexivity]. repeat constructor.
  - pose proof (pipelines_no_update c f (handleFinalizer p) w1
                  (reconcileFunc_pipelines c _ _ f Hsel)) as Hnoupd.
    destruct (f (handleFinalizer p) w1) as [[o w2] t] eqn:Hf.
    cbn [outcome_of fst] in Hout. subst o.
    rewrite (dispatch_pipeline_error c (handleFinalizer p) w1 w2 f id e t)
      by (try exact Hf;
          now rewrite handleFinalizer_Spec, deletionRequested_handleFinalizer).
    cbn [trace_of world_of fst snd] in *.
    split; [|reflexivity]. constructor; [reflexivity|exact Hnoupd].
Qed.

Lemma no_update_on_failure_witness :
  client_Get Lattice.noDisable Lattice.request0 (Lattice.worldWith Lattice.deletedGateway)
  = (inr Lattice.deletedGateway, Lattice.worldWith Lattice.deletedGateway)
  /\ (exists f id e,
        reconcileFunc Lattice.noDisable (Kind (TargetRef (Spec Lattice.deletedGateway)))
                      (deletionRequested Lattice.deletedGateway) = Some f
        /\ outcome_of (f (handleFinalizer Lattice.deletedGateway)
                         (Lattice.worldWith Lattice.deletedGateway))
           = Returns (id, Some e))
  /\ Forall (fun ev => is_Update ev = false)
            (trace_of (Reconcile Lattice.noDisable Lattice.request0
                         (Lattice.worldWith Lattice.deletedGateway))).
Proof.
  assert (Hget : client_Get Lattice.noDisable Lattice.request0
                   (Lattice.worldWith Lattice.deletedGateway)
                 = (inr Lattice.deletedGateway, Lattice.worldWith Lattice.deletedGateway))
    by reflexivity.
  assert (Hcase : exists f id e,
             reconcileFunc Lattice.noDisable
                           (Kind (TargetRef (Spec Lattice.deletedGateway)))
                           (deletionRequested Lattice.deletedGateway) = Some f
             /\ outcome_of (f (handleFinalizer Lattice.deletedGateway)
                              (Lattice.worldWith Lattice.deletedGateway))
                = Returns (id, Some e)).
  { exists (deleteGatewayPolicy Lattice.noDisable), "", (Lattice.Failure "throttled").
    split; reflexivity. }
  split; [exact Hget|]. split; [exact Hcase|].
  exact (proj1 (no_update_on_failure Lattice.noDisable Lattice.request0 _ _
                  Lattice.deletedGateway Hget (or_intror Hcase))).
Defined.

(** When the pipeline succeeds on an object that has an annotations map,
    [Reconcile] stores the identifier under the resource-id annotation,
    calls [Update] once on that object, and returns whatever [Update]
    answered next to the zero result. *)
Lemma Reconcile_persists
  {error : Type} {EM : ErrorModel error} {W : Type} (c : Deps error W)
  (req : NamespacedName) (w w1 w2 w3 : W) (p : IAMAuthPolicy)
  f (id : string) (t : list (event error)) (m : gmap string string)
  (r : option error) :
  client_Get c req w = (inr p, w1) ->
  reconcileFunc c (Kind (TargetRef (Spec p))) (deletionRequested p) = Some f ->
  f (handleFinalizer p) w1 = (Returns (id, None), w2, t) ->
  Annotations p = Some m ->
  client_Update c (SetAnnotations (handleFinalizer p)
                     (Some (<[resourceIdAnnotation := id]> m))) w2 = (r, w3) ->
  Reconcile c req w
  = (Returns (Result_zero, r), w3,
     EGet req (inr p)
       :: t ++ [EUpdate (SetAnnotations (handleFinalizer p)
                           (Some (<[resourceIdAnnotation := id]> m))) r]).
Proof.
  intros Hget Hsel Hf Ha Hu.
  rewrite (Reconcile_fetched c req w w1 p Hget).
  rewrite (dispatch_persist c (handleFinalizer p) w1 w2 w3 f id t m r);
    try assumption; try reflexivity.
  - now rewrite handleFinalizer_Spec, deletionRequested_handleFinalizer.
  - now rewrite handleFinalizer_Annotations.
Qed.

(** When the pipeline succeeds on an object whose annotations map is nil,
    [Reconcile] panics at the assignment and never reaches [Update]. *)
Lemma Reconcile_nil_annotations
  {error : Type} {EM : ErrorModel error} {W : Type} (c : Deps error W)
  (req : NamespacedName) (w w1 w2 : W) (p : IAMAuthPolicy)
  f (id : string) (t : list (event error)) :
  client_Get c req w = (inr p, w1) ->
  reconcileFunc c (Kind (TargetRef (Spec p))) (deletionRequested p) = Some f ->
  f (handleFinalizer p) w1 = (Returns (id, None), w2, t) ->
  Annotations p = None ->
  Reconcile c req w = (Panics, w2, EGet req (inr p) :: t).
Proof.
  intros Hget Hsel Hf Ha.
  rewrite (Reconcile_fetched c req w w1 p Hget).
  rewrite (dispatch_nil_annotations c (handleFinalizer p) w1 w2 f id t);
    try assumption; try reflexivity.
  - now rewrite handleFinalizer_Spec, deletionRequested_handleFinalizer.
  - now rewrite handleFinalizer_Annotations.
Qed.

(** C2.  The success path of [Reconcile] is not total on an object whose
    annotations map is nil.  The store hands back a gateway policy
    without annotations; the upsert pipeline resolves the gateway to
    "sn-123" and returns it without an error; the assignment of the
    resource-id annotation then panics. *)
Theorem Reconcile_upsert_nil_annotations_panics :
  client_Get Lattice.healthy Lattice.request0 (Lattice.worldWith Lattice.newGateway)
  = (inr Lattice.newGateway, Lattice.worldWith Lattice.newGateway)
  /\ Annotations Lattice.newGateway = None
  /\ outcome_of (upsertGatewayPolicy Lattice.healthy (handleFinalizer Lattice.newGateway)
                   (Lattice.worldWith Lattice.newGateway))
     = Returns ("sn-123", None)
  /\ outcome_of (Reconcile Lattice.healthy Lattice.request0
                   (Lattice.worldWith Lattice.newGateway))
     = Panics.
Proof.
  repeat split; vm_compute; reflexivity.
Qed.

(** C7.  A successful pipeline is not always followed by the write-back.
    The store hands back a route policy under deletion whose annotations
    map is nil; the delete pipeline resolves the route to "svc-456" and
    returns it without an error; [Reconcile] panics at the assignment of
    the annotation: the identifier is not stored and [Update] is never
    called. *)
Theorem Reconcile_delete_nil_annotations_no_update :
  client_Get Lattice.healthy Lattice.request0 (Lattice.worldWith Lattice.deletedRouteBare)
  = (inr Lattice.deletedRouteBare, Lattice.worldWith Lattice.deletedRouteBare)
  /\ outcome_of (deleteRoutePolicy Lattice.healthy
                   (handleFinalizer Lattice.deletedRouteBare)
                   (Lattice.worldWith Lattice.deletedRouteBare))
     = Returns ("svc-456", None)
  /\ outcome_of (Reconcile Lattice.healthy Lattice.request0
                   (Lattice.worldWith Lattice.deletedRouteBare))
     = Panics
  /\ trace_of (Reconcile Lattice.healthy Lattice.request0
                 (Lattice.worldWith Lattice.deletedRouteBare))
     = [EGet Lattice.request0 (inr Lattice.deletedRouteBare);
        EFindServiceByK8sName "gw1-default" (inr "svc-456");
        EDelete "svc-456" None; EDisableSvcIAMAuth "svc-456" None].
Proof.
  repeat split; vm_compute; reflexivity.
Qed.

(** ** Idempotence of the pipelines *)

Section Idempotence.
Context {error : Type} {EM : ErrorModel error} {W : Type}.
Variable c : Deps error W.
Hypothesis overwrite : OverwriteStyle c.

Lemma afterWrites_sn_stable a b name w :
  fst (FindServiceNetworkByK8sName c name (afterWrites c a b w))
  = fst (FindServiceNetworkByK8sName c name w).
Proof.
  unfold afterWrites.
  pose proof (lookup_sn_stable c overwrite a name w) as Ha.
  destruct (perform c a w) as [[e|] wa]; cbn [snd] in Ha; [exact Ha|].
  now rewrite (lookup_sn_stable c overwrite b name wa).
Qed.

Lemma afterWrites_svc_stable a b name w :
  fst (FindServiceByK8sName c name (afterWrites c a b w))
  = fst (FindServiceByK8sName c name w).
Proof.
  unfold afterWrites.
  pose proof (lookup_svc_stable c overwrite a name w) as Ha.
  destruct (perform c a w) as [[e|] wa]; cbn [snd] in Ha; [exact Ha|].
  now rewrite (lookup_svc_stable c overwrite b name wa).
Qed.

(** Two writes on different parts of the state, run again from the world
    they left, leave that world. *)
Lemma afterWrites_idempotent a b w :
  part_of a <> part_of b ->
  afterWrites c a b (afterWrites c a b w) = afterWrites c a b w.
Proof.
  intros Hparts. unfold afterWrites.
  pose proof (refused_changes_nothing c overwrite a w) as Hra.
  pose proof (write_idempotent c overwrite a w) as Hia.
  pose proof (write_overwrites c overwrite a b w Hparts) as Hab.
  destruct (perform c a w) as [[e|] wa] eqn:Ea; cbn [fst snd] in *.
  { pose proof (Hra e eq_refl) as ->. now rewrite Ea. }
  pose proof (refused_changes_nothing c overwrite b wa) as Hrb.
  pose proof (write_idempotent c overwrite b wa) as Hib.
  destruct (perform c b wa) as [[e|] wb] eqn:Eb; cbn [fst snd] in *.
  - pose proof (Hrb e eq_refl) as ->.
    destruct (perform c a wa) as [[e'|] w'] eqn:Ea2; cbn [snd] in Hia; subst w'.
    + reflexivity.
    + now rewrite Eb.
  - specialize (Hab eq_refl eq_refl).
    destruct (perform c a wb) as [[e'|] w'] eqn:Ea2; cbn [snd] in Hab; subst w'.
    + reflexivity.
    + exact Hib.
Qed.

Lemma upsertGatewayPolicy_world p w :
  world_of (upsertGatewayPolicy c p w)
  = match fst (FindServiceNetworkByK8sName c (Name (TargetRef (Spec p))) w) with
    | inr id =>
        afterWrites c (ReqEnableSn id) (ReqPut (mkModelPolicy id (Policy (Spec p)))) w
    | inl _ => w
    end.
Proof.
  unfold upsertGatewayPolicy, afterWrites; unfold_ctl; cbn [perform].
  pose proof (lookup_sn_reads c overwrite (Name (TargetRef (Spec p))) w) as Hr.
  destruct (FindServiceNetworkByK8sName c _ w) as [[e|id] w1]; cbn [fst snd] in *;
    subst w1; [reflexivity|].
  destruct (EnableSnIAMAuth c id w) as [[e|] w1]; [reflexivity|].
  destruct (policyMgr_Put c _ w1) as [[e|] w2]; reflexivity.
Qed.

Lemma deleteGatewayPolicy_world p w :
  world_of (deleteGatewayPolicy c p w)
  = match fst (FindServiceNetworkByK8sName c (Name (TargetRef (Spec p))) w) with
    | inr id => afterWrites c (ReqDelete id) (ReqDisableSn id) w
    | inl _ => w
    end.
Proof.
  unfold deleteGatewayPolicy, afterWrites; unfold_ctl; cbn [perform].
  pose proof (lookup_sn_reads c overwrite (Name (TargetRef (Spec p))) w) as Hr.
  destruct (FindServiceNetworkByK8sName c _ w) as [[e|id] w1]; cbn [fst snd] in *;
    subst w1; [reflexivity|].
  destruct (policyMgr_Delete c id w) as [[e|] w1]; [reflexivity|].
  destruct (DisableSnIAMAuth c id w1) as [[e|] w2]; reflexivity.
Qed.

Lemma upsertRoutePolicy_world p w :
  world_of (upsertRoutePolicy c p w)
  = match fst (FindServiceByK8sName c
                 (LatticeServiceName c (Name (TargetRef (Spec p))) (Namespace p)) w) with
    | inr id =>
        afterWrites c (ReqEnableSvc id) (ReqPut (mkModelPolicy id (Policy (Spec p)))) w
    | inl _ => w
    end.
Proof.
  unfold upsertRoutePolicy, afterWrites; unfold_ctl; cbn [perform].
  pose proof (lookup_svc_reads c overwrite
                (LatticeServiceName c (Name (TargetRef (Spec p))) (Namespace p)) w) as Hr.
  destruct (FindServiceByK8sName c _ w) as [[e|id] w1]; cbn [fst snd] in *;
    subst w1; [reflexivity|].
  destruct (EnableSvcIAMAuth c id w) as [[e|] w1]; [reflexivity|].
  destruct (policyMgr_Put c _ w1) as [[e|] w2]; reflexivity.
Qed.

Lemma deleteRoutePolicy_world p w :
  world_of (deleteRoutePolicy c p w)
  = match fst (FindServiceByK8sName c
                 (LatticeServiceName c (Name (TargetRef (Spec p))) (Namespace p)) w) with
    | inr id => afterWrites c (ReqDelete id) (ReqDisableSvc id) w
    | inl _ => w
    end.
Proof.
  unfold deleteRoutePolicy, afterWrites; unfold_ctl; cbn [perform].
  pose proof (lookup_svc_reads c overwrite
                (LatticeServiceName c (Name (TargetRef (Spec p))) (Namespace p)) w) as Hr.
  destruct (FindServiceByK8sName c _ w) as [[e|id] w1]; cbn [fst snd] in *;
    subst w1; [reflexivity|].
  destruct (policyMgr_Delete c id w) as [[e|] w1]; [reflexivity|].
  destruct (DisableSvcIAMAuth c id w1) as [[e|] w2]; reflexivity.
Qed.

Lemma twice_world f (p : IAMAuthPolicy) (w : W) :
  In f (pipelines c) ->
  world_of (twice (f p) w) = world_of (f p (world_of (f p w))).
Proof.
  intros Hin.
  destruct (pipelines_return c f p w Hin) as (out & w1 & t & Hf).
  unfold twice, bind. rewrite Hf. cbn [world_of fst snd].
  destruct (f p w1) as [[o w2] t2]. reflexivity.
Qed.

Lemma pipelines_world_idempotent f (p : IAMAuthPolicy) (w : W) :
  In f (pipelines c) ->
  world_of (twice (f p) w) = world_of (f p w).
Proof.
  intros Hin. rewrite (twice_world f p w Hin).
  destruct Hin as [<-|[<-|[<-|[<-|[]]]]].
  - rewrite !upsertGatewayPolicy_world.
    destruct (fst (FindServiceNetworkByK8sName c _ w)) as [e|id] eqn:E.
    + now rewrite E.
    + rewrite afterWrites_sn_stable, E.
      apply afterWrites_idempotent. discriminate.
  - rewrite !deleteGatewayPolicy_world.
    destruct (fst (FindServiceNetworkByK8sName c _ w)) as [e|id] eqn:E.
    + now rewrite E.
    + rewrite afterWrites_sn_stable, E.
      apply afterWrites_idempotent. discriminate.
  - rewrite !upsertRoutePolicy_world.
    destruct (fst (FindServiceByK8sName c _ w)) as [e|id] eqn:E.
    + now rewrite E.
    + rewrite afterWrites_svc_stable, E.
      apply afterWrites_idempotent. discriminate.
  - rewrite !deleteRoutePolicy_world.
    destruct (fst (FindServiceByK8sName c _ w)) as [e|id] eqn:E.
    + now rewrite E.
    + rewrite afterWrites_svc_stable, E.
      apply afterWrites_idempotent. discriminate.
Qed.

End Idempotence.

(** ** The modelled cloud is overwrite-style *)

Ltac same_world :=
  unfold Lattice.effect, Lattice.setStore, Lattice.setSnAuth, Lattice.setSvcAuth,
    Lattice.setPolicies;
  cbn [Lattice.store Lattice.serviceNetworks Lattice.services Lattice.snAuth
       Lattice.svcAuth Lattice.policies];
  rewrite ?insert_insert_eq, ?delete_delete_eq; reflexivity.

(** Doing a write of the model again changes nothing. *)
Lemma effect_idempotent (r : request) (w : Lattice.World) :
  Lattice.effect r (Lattice.effect r w) = Lattice.effect r w.
Proof. destruct r; same_world. Qed.

Lemma effect_overwrites (a b : request) (w : Lattice.World) :
  part_of a <> part_of b ->
  Lattice.effect a (Lattice.effect b (Lattice.effect a w))
  = Lattice.effect b (Lattice.effect a w).
Proof.
  intros Hparts. destruct a, b; try (exfalso; apply Hparts; reflexivity); same_world.
Qed.

Lemma effect_serviceNetworks (r : request) (w : Lattice.World) :
  Lattice.serviceNetworks (Lattice.effect r w) = Lattice.serviceNetworks w.
Proof. destruct r; reflexivity. Qed.

Lemma effect_services (r : request) (w : Lattice.World) :
  Lattice.services (Lattice.effect r w) = Lattice.services w.
Proof. destruct r; reflexivity. Qed.

Lemma perform_model fault serviceName (r : request) :
  perform (Lattice.deps fault serviceName) r = Lattice.write fault r.
Proof. destruct r; reflexivity. Qed.

Lemma write_world fault (r : request) (w : Lattice.World) :
  snd (Lattice.write fault r w)
  = match fault r w with Some _ => w | None => Lattice.effect r w end.
Proof. unfold Lattice.write. destruct (fault r w); reflexivity. Qed.

Lemma write_answer fault (r : request) (w : Lattice.World) :
  fst (Lattice.write fault r w) = fault r w.
Proof. unfold Lattice.write. destruct (fault r w); reflexivity. Qed.

Lemma model_overwrite_style
  (fault : request -> Lattice.World -> option Lattice.error)
  (serviceName : string -> string -> string) :
  OverwriteStyle (Lattice.deps fault serviceName).
Proof.
  constructor.
  - intros name w. cbn. unfold Lattice.lookup.
    destruct (Lattice.serviceNetworks w !! name); reflexivity.
  - intros name w. cbn. unfold Lattice.lookup.
    destruct (Lattice.services w !! name); reflexivity.
  - intros r name w. rewrite perform_model, write_world. cbn. unfold Lattice.lookup.
    destruct (fault r w); [reflexivity|]. rewrite effect_serviceNetworks.
    destruct (Lattice.serviceNetworks w !! name); reflexivity.
  - intros r name w. rewrite perform_model, write_world. cbn. unfold Lattice.lookup.
    destruct (fault r w); [reflexivity|]. rewrite effect_services.
    destruct (Lattice.services w !! name); reflexivity.
  - intros r w e. rewrite perform_model, write_world, write_answer.
    now intros ->.
  - intros r w. rewrite perform_model, !write_world.
    destruct (fault r w) eqn:E; [now rewrite E|].
    destruct (fault r (Lattice.effect r w)); [reflexivity|].
    apply effect_idempotent.
  - intros a b w Hparts. rewrite !perform_model, !write_answer, !write_world.
    intros ->. intros ->.
    destruct (fault a _); [reflexivity|].
    now apply effect_overwrites.
Qed.

(** [OverwriteStyle] is the five conditions together. *)
Lemma OverwriteStyle_conditions
  {error : Type} {W : Type} (c : Deps error W) :
  OverwriteStyle c
  <-> LookupsReadOnly c /\ LookupsStable c /\ RefusedChangesNothing c
      /\ WritesIdempotent c /\ WritesOverwrite c.
Proof.
  split.
  - intros [H1 H2 H3 H4 H5 H6 H7]. repeat split; assumption.
  - intros ([H1 H2] & [H3 H4] & H5 & H6 & H7). constructor; assumption.
Qed.

Ltac unfold_conditions :=
  unfold EachIdempotent, LookupsReadOnly, LookupsStable, RefusedChangesNothing,
    WritesIdempotent, WritesRepeatable, WritesOverwrite.

Ltac provider_cases :=
  unfold Flip.World, Late.World, Drift.World in *;
  repeat match goal with
         | r : request |- _ => destruct r
         | w : (bool * option string)%type |- _ => destruct w as [[|] [?|]]
         | w : (bool * bool)%type |- _ => destruct w as [[|] [|]]
         end.

(** The provider [Flip]: every write is idempotent taken alone. *)
Lemma Flip_each_idempotent : EachIdempotent Flip.deps.
Proof.
  unfold_conditions.
  repeat split; try (intros; provider_cases; reflexivity).
  intros r w e H. provider_cases; discriminate H.
Qed.

(** C10, as stated, fails.  On the provider [Flip] the lookups only read,
    no call is refused and every operation (enable, disable, put, delete)
    is idempotent; yet the upsert-gateway pipeline, started with auth off
    and no document, leaves the document attached after one run and no
    document after two.  Idempotence of each operation does not make
    their sequence idempotent. *)
Lemma pipelines_not_idempotent_by_idempotent_writes :
  EachIdempotent Flip.deps
  /\ reconcileFunc Flip.deps "Gateway" false = Some (upsertGatewayPolicy Flip.deps)
  /\ world_of (upsertGatewayPolicy Flip.deps Lattice.newGateway (false, None))
     = (false, Some "{}")
  /\ world_of (twice (upsertGatewayPolicy Flip.deps Lattice.newGateway) (false, None))
     = (false, None)
  /\ ~ (forall (c : Deps Lattice.error Flip.World) (kind : string) (isDelete : bool)
               f (p : IAMAuthPolicy) (w : Flip.World),
           EachIdempotent c ->
           reconcileFunc c kind isDelete = Some f ->
           world_of (twice (f p) w) = world_of (f p w)).
Proof.
  split; [exact Flip_each_idempotent|].
  split; [reflexivity|]. split; [reflexivity|]. split; [reflexivity|].
  intros H.
  specialize (H Flip.deps "Gateway" false (upsertGatewayPolicy Flip.deps)
                Lattice.newGateway (false, None) Flip_each_idempotent eq_refl).
  discriminate H.
Qed.

(** The refusals have to change nothing.  On the provider [Late] every
    other condition holds, but the enable-auth call that took effect and
    answered with an error stops the first run, and the second run goes
    on to attach the document. *)
Lemma refusals_must_change_nothing :
  LookupsReadOnly Late.deps /\ LookupsStable Late.deps
  /\ WritesIdempotent Late.deps /\ WritesOverwrite Late.deps
  /\ world_of (upsertGatewayPolicy Late.deps Lattice.newGateway (false, None))
     = (true, None)
  /\ world_of (twice (upsertGatewayPolicy Late.deps Lattice.newGateway) (false, None))
     = (true, Some "{}").
Proof.
  unfold_conditions.
  repeat split; try (intros; provider_cases; reflexivity).
  intros a b w Hparts Ha Hb.
  provider_cases; try reflexivity; try discriminate Ha; try discriminate Hb;
    exfalso; apply Hparts; reflexivity.
Qed.

(** The answers of the lookups have to stay.  On the provider [Drift]
    every other condition holds, but the first run changes what the
    lookup answers, and the second run enables auth on another service
    network. *)
Lemma lookups_must_be_stable :
  LookupsReadOnly Drift.deps /\ RefusedChangesNothing Drift.deps
  /\ WritesIdempotent Drift.deps /\ WritesOverwrite Drift.deps
  /\ world_of (upsertGatewayPolicy Drift.deps Lattice.newGateway (false, false))
     = (true, false)
  /\ world_of (twice (upsertGatewayPolicy Drift.deps Lattice.newGateway) (false, false))
     = (true, true).
Proof.
  assert (Hset : forall v id w,
             snd (Drift.setAuth v id (snd (Drift.setAuth v id w)))
             = snd (Drift.setAuth v id w)).
  { intros v id w. unfold Drift.setAuth. cbn [fst snd].
    destruct (String.eqb id "sn-1"); [reflexivity|].
    destruct (String.eqb id "sn-2"); reflexivity. }
  unfold_conditions.
  repeat split.
  - intros r w e H. destruct r; discriminate H.
  - intros r w. destruct r; cbn [perform Drift.deps EnableSnIAMAuth DisableSnIAMAuth
                                 EnableSvcIAMAuth DisableSvcIAMAuth policyMgr_Put
                                 policyMgr_Delete]; auto.
  - intros a b w Hparts _ _.
    destruct a, b; try (exfalso; apply Hparts; reflexivity);
      cbn [perform Drift.deps EnableSnIAMAuth DisableSnIAMAuth
           EnableSvcIAMAuth DisableSvcIAMAuth policyMgr_Put policyMgr_Delete snd];
      auto.
Qed.

(** C10, amended.  When the lookups only read and no write changes what
    they answer, a refused write changes nothing, every write is
    idempotent, and every write overwrites its own part of the state
    (done again after an accepted write on the other part, auth mode or
    policy document, it changes nothing), then for every supported kind
    and both directions running the selected pipeline twice in
    succession leaves the same state as running it once. *)
Theorem pipelines_idempotent
  {error : Type} {EM : ErrorModel error} {W : Type} (c : Deps error W)
  (kind : string) (isDelete : bool) f (p : IAMAuthPolicy) (w : W) :
  OverwriteStyle c ->
  reconcileFunc c kind isDelete = Some f ->
  world_of (twice (f p) w) = world_of (f p w).
Proof.
  intros Hstyle Hsel.
  exact (pipelines_world_idempotent c Hstyle f p w
           (reconcileFunc_pipelines c kind isDelete f Hsel)).
Qed.

(** The service network has auth on and a document attached, and the
    provider refuses the disable-auth call: one run of the delete-gateway
    pipeline detaches the document and leaves auth on; a second run
    changes nothing more. *)
Lemma pipelines_idempotent_witness :
  OverwriteStyle Lattice.noDisable
  /\ reconcileFunc Lattice.noDisable "Gateway" true
     = Some (deleteGatewayPolicy Lattice.noDisable)
  /\ Lattice.cloudState (Lattice.enforcedWorld Lattice.deletedGateway)
     = ({[ "sn-123" := true ]}, ∅, {[ "sn-123" := "{}" ]})
  /\ Lattice.cloudState
       (world_of (deleteGatewayPolicy Lattice.noDisable Lattice.deletedGateway
                    (Lattice.enforcedWorld Lattice.deletedGateway)))
     = ({[ "sn-123" := true ]}, ∅, ∅)
  /\ world_of (twice (deleteGatewayPolicy Lattice.noDisable Lattice.deletedGateway)
                     (Lattice.enforcedWorld Lattice.deletedGateway))
     = world_of (deleteGatewayPolicy Lattice.noDisable Lattice.deletedGateway
                   (Lattice.enforcedWorld Lattice.deletedGateway)).
Proof.
  assert (Hstyle : OverwriteStyle Lattice.noDisable)
    by exact (model_overwrite_style Lattice.failDisable Lattice.dashName).
  assert (Hsel : reconcileFunc Lattice.noDisable "Gateway" true
                 = Some (deleteGatewayPolicy Lattice.noDisable)) by reflexivity.
  split; [exact Hstyle|]. split; [exact Hsel|].
  split; [reflexivity|].
  split; [vm_compute; reflexivity|].
  exact (pipelines_idempotent Lattice.noDisable "Gateway" true _
           Lattice.deletedGateway (Lattice.enforcedWorld Lattice.deletedGateway)
           Hstyle Hsel).
Defined.

(** On the modelled cloud: the auth-mode toggles and the attached policy
    documents after two runs of a pipeline are those after one run,
    whichever calls the provider refuses. *)
Lemma model_cloudState_idempotent
  (fault : request -> Lattice.World -> option Lattice.error)
  (serviceName : string -> string -> string)
  f (p : IAMAuthPolicy) (w : Lattice.World) :
  In f (pipelines (Lattice.deps fault serviceName)) ->
  Lattice.cloudState (world_of (twice (f p) w))
  = Lattice.cloudState (world_of (f p w)).
Proof.
  intros Hin.
  now rewrite (pipelines_world_idempotent _ (model_overwrite_style fault serviceName)
                 f p w Hin).
Qed.

(** * Further properties of the controller *)

(** ** Every run of [dispatch] and of [Reconcile] *)

Section AllRuns.
Context {error : Type} {EM : ErrorModel error} {W : Type}.
Variable c : Deps error W.

(** The runs [dispatch] can have, by the pipeline selected, what it
    handed back and the annotations of the object. *)
Lemma dispatch_cases (p : IAMAuthPolicy) (w : W) :
  match reconcileFunc c (Kind (TargetRef (Spec p))) (deletionRequested p) with
  | None => dispatch c p w = (Returns (mkResult false time_Hour, None), w, [])
  | Some f =>
      exists id oe w2 t,
        f p w = (Returns (id, oe), w2, t)
        /\ match oe, Annotations p with
           | Some e, _ =>
               dispatch c p w
               = (Returns (if services_IsNotFoundError e
                           then (mkResult false (time_Second * 30), None)
                           else (Result_zero, Some e)), w2, t)
           | None, None => dispatch c p w = (Panics, w2, t)
           | None, Some m =>
               let q := SetAnnotations p (Some (<[resourceIdAnnotation := id]> m)) in
               dispatch c p w
               = (Returns (Result_zero, fst (client_Update c q w2)),
                  snd (client_Update c q w2),
                  t ++ [EUpdate q (fst (client_Update c q w2))])
           end
  end.
Proof.
  destruct (reconcileFunc c (Kind (TargetRef (Spec p))) (deletionRequested p))
    as [f|] eqn:Hsel.
  2:{ now apply dispatch_unsupported. }
  destruct (pipelines_return c f p w (reconcileFunc_pipelines c _ _ f Hsel))
    as ([id oe] & w2 & t & Hf).
  exists id, oe, w2, t. split; [exact Hf|].
  destruct oe as [e|].
  - now apply (dispatch_pipeline_error c p w w2 f id e t).
  - destruct (Annotations p) as [m|] eqn:Ha.
    + cbn zeta.
      destruct (client_Update c
                  (SetAnnotations p (Some (<[resourceIdAnnotation := id]> m))) w2)
        as [r w3] eqn:Hu.
      now apply (dispatch_persist c p w w2 w3 f id t m r).
    + now apply (dispatch_nil_annotations c p w w2 f id t).
Qed.

Lemma Reconcile_get_failed (req : NamespacedName) (w w1 : W) (e : error) :
  client_Get c req w = (inl e, w1) ->
  Reconcile c req w
  = (Returns (Result_zero, IgnoreNotFound e), w1, [EGet req (inl e)]).
Proof.
  intros Hget. unfold Reconcile, bind, call, ret. now rewrite Hget.
Qed.

(** What an [Update] in the trace of [Reconcile] tells about the run. *)
Lemma Reconcile_update (req : NamespacedName) (w : W) pre q r post :
  trace_of (Reconcile c req w) = pre ++ EUpdate q r :: post ->
  exists p w1 f id m w2 t,
    client_Get c req w = (inr p, w1)
    /\ reconcileFunc c (Kind (TargetRef (Spec p))) (deletionRequested p) = Some f
    /\ f (handleFinalizer p) w1 = (Returns (id, None), w2, t)
    /\ Annotations p = Some m
    /\ q = SetAnnotations (handleFinalizer p)
             (Some (<[resourceIdAnnotation := id]> m))
    /\ pre = EGet req (inr p) :: t
    /\ post = []
    /\ Reconcile c req w
       = (Returns (Result_zero, r), snd (client_Update c q w2),
          EGet req (inr p) :: t ++ [EUpdate q r]).
Proof.
  intros Ht.
  destruct (client_Get c req w) as [[e|p] w1] eqn:Hget.
  { rewrite (Reconcile_get_failed req w w1 e Hget) in Ht.
    cbn [trace_of snd] in Ht.
    destruct pre as [|a [|b pre]]; discriminate Ht. }
  pose proof (Reconcile_fetched c req w w1 p Hget) as Hrun.
  rewrite Hrun in Ht.
  destruct (dispatch c (handleFinalizer p) w1) as [[r0 w3] t0] eqn:Hd.
  cbn [trace_of snd] in Ht.
  destruct pre as [|a pre]; cbn [app] in Ht; [discriminate Ht|].
  injection Ht as <- Ht.
  assert (Ht' : trace_of (dispatch c (handleFinalizer p) w1)
                = pre ++ EUpdate q r :: post) by (now rewrite Hd).
  destruct (dispatch_update c _ _ _ _ _ _ Ht')
    as (f & id & m & w2 & Hsel & Hf & Ha & Hq & Hpost).
  subst q post.
  destruct (client_Update c
              (SetAnnotations (handleFinalizer p)
                 (Some (<[resourceIdAnnotation := id]> m))) w2)
    as [r' w4] eqn:Hu.
  pose proof (dispatch_persist c (handleFinalizer p) w1 w2 w4 f id pre m r'
                Hsel Hf Ha Hu) as Hdp.
  rewrite Hd in Hdp. injection Hdp as -> -> ->.
  apply app_inv_head in Ht. injection Ht as ->.
  rewrite handleFinalizer_Spec, deletionRequested_handleFinalizer in Hsel.
  rewrite handleFinalizer_Annotations in Ha.
  exists p, w1, f, id, m, w2, pre.
  repeat (split; [assumption || reflexivity|]).
  rewrite Hu. exact Hrun.
Qed.

End AllRuns.

(** ** The fetch and the write-back *)

(** X1.  When [Get] fails, [Reconcile] makes no further call and returns
    the zero result; a not-found error (the object was deleted while the
    request was queued) is swallowed, any other error is returned as it
    is. *)
Theorem Reconcile_get_error
  {error : Type} {EM : ErrorModel error} {W : Type} (c : Deps error W)
  (req : NamespacedName) (w w1 : W) (e : error) :
  client_Get c req w = (inl e, w1) ->
  Reconcile c req w
  = (Returns (mkResult false 0, if apierrors_IsNotFound e then None else Some e),
     w1, [EGet req (inl e)]).
Proof.
  intros Hget. now rewrite (Reconcile_get_failed c req w w1 e Hget).
Qed.

Lemma Reconcile_get_error_witness :
  client_Get Lattice.healthy Lattice.requestGone (Lattice.worldWith Lattice.newGateway)
  = (inl Lattice.K8sNotFound, Lattice.worldWith Lattice.newGateway)
  /\ Reconcile Lattice.healthy Lattice.requestGone (Lattice.worldWith Lattice.newGateway)
     = (Returns (mkResult false 0, None), Lattice.worldWith Lattice.newGateway,
        [EGet Lattice.requestGone (inl Lattice.K8sNotFound)]).
Proof.
  assert (Hget : client_Get Lattice.healthy Lattice.requestGone
                   (Lattice.worldWith Lattice.newGateway)
                 = (inl Lattice.K8sNotFound, Lattice.worldWith Lattice.newGateway))
    by reflexivity.
  split; [exact Hget|].
  exact (Reconcile_get_error Lattice.healthy Lattice.requestGone _ _ _ Hget).
Defined.

(** X2.  When the selected pipeline returns an identifier and no error
    and the fetched object has an annotations map, [Reconcile] calls
    [Update] once, after the pipeline's calls, on the object with the
    identifier stored under the resource-id annotation and every other
    annotation kept, and returns the zero result with the answer of
    [Update]. *)
Theorem Reconcile_writes_back
  {error : Type} {EM : ErrorModel error} {W : Type} (c : Deps error W)
  (req : NamespacedName) (w w1 : W) (p : IAMAuthPolicy)
  f (id : string) (m : gmap string string) :
  client_Get c req w = (inr p, w1) ->
  reconcileFunc c (Kind (TargetRef (Spec p))) (deletionRequested p) = Some f ->
  outcome_of (f (handleFinalizer p) w1) = Returns (id, None) ->
  Annotations p = Some m ->
  exists q m',
    Annotations q = Some m'
    /\ m' !! resourceIdAnnotation = Some id
    /\ (forall k, k <> resourceIdAnnotation -> m' !! k = m !! k)
    /\ Reconcile c req w
       = (Returns (mkResult false 0,
                   fst (client_Update c q (world_of (f (handleFinalizer p) w1)))),
          snd (client_Update c q (world_of (f (handleFinalizer p) w1))),
          EGet req (inr p)
            :: trace_of (f (handleFinalizer p) w1)
               ++ [EUpdate q (fst (client_Update c q
                                     (world_of (f (handleFinalizer p) w1))))]).
Proof.
  intros Hget Hsel Hout Ha.
  destruct (f (handleFinalizer p) w1) as [[o w2] t] eqn:Hf.
  cbn [outcome_of world_of trace_of fst snd] in *. subst o.
  exists (SetAnnotations (handleFinalizer p)
            (Some (<[resourceIdAnnotation := id]> m))),
         (<[resourceIdAnnotation := id]> m).
  split; [reflexivity|].
  split; [apply lookup_insert_eq|].
  split; [intros k Hk; now apply lookup_insert_ne|].
  destruct (client_Update c
              (SetAnnotations (handleFinalizer p)
                 (Some (<[resourceIdAnnotation := id]> m))) w2)
    as [r w3] eqn:Hu.
  exact (Reconcile_persists c req w w1 w2 w3 p f id t m r Hget Hsel Hf Ha Hu).
Qed.

Lemma Reconcile_writes_back_witness :
  client_Get Lattice.healthy Lattice.request0
             (Lattice.worldWith Lattice.annotatedGateway)
  = (inr Lattice.annotatedGateway, Lattice.worldWith Lattice.annotatedGateway)
  /\ reconcileFunc Lattice.healthy (Kind (TargetRef (Spec Lattice.annotatedGateway)))
                   (deletionRequested Lattice.annotatedGateway)
     = Some (upsertGatewayPolicy Lattice.healthy)
  /\ outcome_of (upsertGatewayPolicy Lattice.healthy
                   (handleFinalizer Lattice.annotatedGateway)
                   (Lattice.worldWith Lattice.annotatedGateway))
     = Returns ("sn-123", None)
  /\ Annotations Lattice.annotatedGateway = Some {[ "team" := "net" ]}
  /\ exists (q : IAMAuthPolicy) (m' : gmap string string),
       Annotations q = Some m'
       /\ m' !! resourceIdAnnotation = Some "sn-123"
       /\ (forall k, k <> resourceIdAnnotation
                     -> m' !! k = ({[ "team" := "net" ]} : gmap string string) !! k).
Proof.
  assert (Hget : client_Get Lattice.healthy Lattice.request0
                   (Lattice.worldWith Lattice.annotatedGateway)
                 = (inr Lattice.annotatedGateway,
                    Lattice.worldWith Lattice.annotatedGateway)) by reflexivity.
  assert (Hsel : reconcileFunc Lattice.healthy
                   (Kind (TargetRef (Spec Lattice.annotatedGateway)))
                   (deletionRequested Lattice.annotatedGateway)
                 = Some (upsertGatewayPolicy Lattice.healthy)) by reflexivity.
  assert (Hout : outcome_of (upsertGatewayPolicy Lattice.healthy
                               (handleFinalizer Lattice.annotatedGateway)
                               (Lattice.worldWith Lattice.annotatedGateway))
                 = Returns ("sn-123", None)) by (vm_compute; reflexivity).
  assert (Ha : Annotations Lattice.annotatedGateway = Some {[ "team" := "net" ]})
    by reflexivity.
  repeat (split; [assumption|]).
  destruct (Reconcile_writes_back Lattice.healthy Lattice.request0 _ _
              Lattice.annotatedGateway _ "sn-123" _ Hget Hsel Hout Ha)
    as (q & m' & H1 & H2 & H3 & _).
  exists q, m'. auto.
Defined.

Lemma handleFinalizer_ObjName (o : IAMAuthPolicy) :
  ObjName (handleFinalizer o) = ObjName o.
Proof.
  unfold handleFinalizer, AddFinalizer, RemoveFinalizer, ContainsFinalizer.
  destruct (Time_IsZero _), (existsb _ _); reflexivity.
Qed.

Lemma handleFinalizer_SetAnnotations (o : IAMAuthPolicy) a :
  handleFinalizer (SetAnnotations o a) = SetAnnotations (handleFinalizer o) a.
Proof.
  unfold handleFinalizer, AddFinalizer, RemoveFinalizer, ContainsFinalizer,
    SetAnnotations, SetFinalizers.
  cbn [DeletionTimestamp Finalizers Namespace ObjName Annotations Spec].
  destruct (Time_IsZero _), (existsb _ _); reflexivity.
Qed.

Lemma gate_by_deletion (m : marker) (d : bool) :
  gate m d = if d then absent else present.
Proof. destruct m, d; reflexivity. Qed.

(** X3.  [Update] is called at most once in a reconcile, as its last
    call, and [Reconcile] then returns the answer of that call, nil or an
    error such as a write conflict, next to the zero result: no requeue
    delay and no second attempt. *)
Theorem update_is_last_and_returned
  {error : Type} {EM : ErrorModel error} {W : Type} (c : Deps error W)
  (req : NamespacedName) (w : W)
  (pre : list (event error)) (q : IAMAuthPolicy) (r : option error)
  (post : list (event error)) :
  trace_of (Reconcile c req w) = pre ++ EUpdate q r :: post ->
  post = []
  /\ Forall (fun ev => is_Update ev = false) pre
  /\ outcome_of (Reconcile c req w) = Returns (mkResult false 0, r).
Proof.
  intros Ht.
  destruct (Reconcile_update c req w pre q r post Ht)
    as (p & w1 & f & id & m & w2 & t & Hget & Hsel & Hf & Ha & Hq & -> & -> & Hrun).
  split; [reflexivity|]. split.
  - constructor; [reflexivity|].
    pose proof (pipelines_no_update c f (handleFinalizer p) w1
                  (reconcileFunc_pipelines c _ _ f Hsel)) as Hno.
    now rewrite Hf in Hno.
  - now rewrite Hrun.
Qed.

Lemma update_is_last_and_returned_witness :
  trace_of (Reconcile Lattice.healthy Lattice.request0
              (Lattice.worldWith Lattice.deletedRoute))
  = [EGet Lattice.request0 (inr Lattice.deletedRoute);
     EFindServiceByK8sName "gw1-default" (inr "svc-456");
     EDelete "svc-456" None; EDisableSvcIAMAuth "svc-456" None]
    ++ EUpdate (SetAnnotations (handleFinalizer Lattice.deletedRoute)
                  (Some (<[resourceIdAnnotation := "svc-456"]> ∅))) None :: []
  /\ outcome_of (Reconcile Lattice.healthy Lattice.request0
                   (Lattice.worldWith Lattice.deletedRoute))
     = Returns (mkResult false 0, None).
Proof.
  assert (Ht : trace_of (Reconcile Lattice.healthy Lattice.request0
                           (Lattice.worldWith Lattice.deletedRoute))
               = [EGet Lattice.request0 (inr Lattice.deletedRoute);
                  EFindServiceByK8sName "gw1-default" (inr "svc-456");
                  EDelete "svc-456" None; EDisableSvcIAMAuth "svc-456" None]
                 ++ EUpdate (SetAnnotations (handleFinalizer Lattice.deletedRoute)
                               (Some (<[resourceIdAnnotation := "svc-456"]> ∅))) None
                    :: [])
    by (vm_compute; reflexivity).
  split; [exact Ht|].
  exact (proj2 (proj2 (update_is_last_and_returned Lattice.healthy Lattice.request0
                         _ _ _ _ _ Ht))).
Defined.

(** X4.  The object [Reconcile] writes is fully determined by the fetched
    one and the identifier the pipeline returned.  Its annotations are
    the fetched ones with the identifier stored under the resource-id
    annotation; its finalizers are those [handleFinalizer] leaves, so the
    finalizers other than the marker are the fetched ones, in their
    order, and the marker is there exactly when the policy is not under
    deletion; its spec, namespace, name and deletion timestamp are those
    fetched; and [handleFinalizer] has nothing left to change on it. *)
Theorem written_object
  {error : Type} {EM : ErrorModel error} {W : Type} (c : Deps error W)
  (req : NamespacedName) (w : W)
  (pre : list (event error)) (q : IAMAuthPolicy) (r : option error)
  (post : list (event error)) :
  trace_of (Reconcile c req w) = pre ++ EUpdate q r :: post ->
  exists p w1 f id m,
    client_Get c req w = (inr p, w1)
    /\ reconcileFunc c (Kind (TargetRef (Spec p))) (deletionRequested p) = Some f
    /\ outcome_of (f (handleFinalizer p) w1) = Returns (id, None)
    /\ Annotations p = Some m
    /\ Annotations q = Some (<[resourceIdAnnotation := id]> m)
    /\ Finalizers q = Finalizers (handleFinalizer p)
    /\ List.filter (fun e => negb (String.eqb authPolicyFinalizer e)) (Finalizers q)
       = List.filter (fun e => negb (String.eqb authPolicyFinalizer e)) (Finalizers p)
    /\ markerOf q = (if deletionRequested p then absent else present)
    /\ Spec q = Spec p
    /\ Namespace q = Namespace p
    /\ ObjName q = ObjName p
    /\ DeletionTimestamp q = DeletionTimestamp p
    /\ handleFinalizer q = q.
Proof.
  intros Ht.
  destruct (Reconcile_update c req w pre q r post Ht)
    as (p & w1 & f & id & m & w2 & t & Hget & Hsel & Hf & Ha & -> & _).
  exists p, w1, f, id, m. split; [exact Hget|]. split; [exact Hsel|].
  split; [now rewrite Hf|]. split; [exact Ha|].
  split; [reflexivity|]. split; [reflexivity|].
  split.
  { change (Finalizers (SetAnnotations (handleFinalizer p)
                          (Some (<[resourceIdAnnotation := id]> m))))
      with (Finalizers (handleFinalizer p)).
    rewrite handleFinalizer_cases. generalize authPolicyFinalizer. intros g.
    destruct (markerOf p), (deletionRequested p); cbn [SetFinalizers Finalizers];
      rewrite ?List.filter_app; cbn [List.filter];
      rewrite ?String.eqb_refl; cbn [negb]; rewrite ?app_nil_r; try reflexivity.
    clear. induction (Finalizers p) as [|x l IH]; cbn [List.filter]; [reflexivity|].
    destruct (negb (String.eqb g x)) eqn:E; cbn [List.filter];
      [rewrite E; now f_equal|exact IH]. }
  split.
  { change (markerOf (SetAnnotations (handleFinalizer p)
                        (Some (<[resourceIdAnnotation := id]> m))))
      with (markerOf (handleFinalizer p)).
    now rewrite handleFinalizer_marker, gate_by_deletion. }
  split; [apply handleFinalizer_Spec|].
  split; [apply handleFinalizer_Namespace|].
  split; [apply handleFinalizer_ObjName|].
  split; [apply handleFinalizer_DeletionTimestamp|].
  now rewrite handleFinalizer_SetAnnotations, handleFinalizer_idempotent.
Qed.

(** A gateway policy held by another controller's finalizer and carrying
    an annotation: the object written keeps both and gains the marker and
    the resource id. *)
Lemma written_object_witness :
  trace_of (Reconcile Lattice.healthy Lattice.request0
              (Lattice.worldWith Lattice.ownedGateway))
  = [EGet Lattice.request0 (inr Lattice.ownedGateway);
     EFindServiceNetworkByK8sName "gw1" (inr "sn-123");
     EEnableSnIAMAuth "sn-123" None;
     EPut (mkModelPolicy "sn-123" "{}") None]
    ++ EUpdate (Lattice.policyFor "Gateway" "gw1" None ["other"; authPolicyFinalizer]
                  (Some (<[resourceIdAnnotation := "sn-123"]> {[ "team" := "net" ]})))
               None :: []
  /\ exists p w1 f id m,
       client_Get Lattice.healthy Lattice.request0
                  (Lattice.worldWith Lattice.ownedGateway) = (inr p, w1)
       /\ reconcileFunc Lattice.healthy (Kind (TargetRef (Spec p)))
                        (deletionRequested p) = Some f
       /\ outcome_of (f (handleFinalizer p) w1) = Returns (id, None)
       /\ Annotations p = Some m
       /\ Some (<[resourceIdAnnotation := "sn-123"]>
                  ({[ "team" := "net" ]} : gmap string string))
          = Some (<[resourceIdAnnotation := id]> m)
       /\ ["other"; authPolicyFinalizer] = Finalizers (handleFinalizer p)
       /\ ["other"]
          = List.filter (fun e => negb (String.eqb authPolicyFinalizer e)) (Finalizers p).
Proof.
  assert (Ht : trace_of (Reconcile Lattice.healthy Lattice.request0
                           (Lattice.worldWith Lattice.ownedGateway))
               = [EGet Lattice.request0 (inr Lattice.ownedGateway);
                  EFindServiceNetworkByK8sName "gw1" (inr "sn-123");
                  EEnableSnIAMAuth "sn-123" None;
                  EPut (mkModelPolicy "sn-123" "{}") None]
                 ++ EUpdate (Lattice.policyFor "Gateway" "gw1" None
                               ["other"; authPolicyFinalizer]
                               (Some (<[resourceIdAnnotation := "sn-123"]>
                                        {[ "team" := "net" ]})))
                            None :: [])
    by (vm_compute; reflexivity).
  split; [exact Ht|].
  destruct (written_object Lattice.healthy Lattice.request0 _ _ _ _ _ Ht)
    as (p & w1 & f & id & m & Hget & Hsel & Hout & Ha & Hann & Hfin & Hrest & _).
  exists p, w1, f, id, m. auto 10.
Defined.

(** ** More on the pipelines *)

Section PipelineSteps.
Context {error : Type}.
Variable find : error + string -> event error.
Variables first second : string -> option error -> event error.
Variable key : event error -> option string.
Hypothesis key_find : forall r, key (find r) = None.
Hypothesis key_first : forall id r, key (first id r) = None.
Hypothesis key_second : forall id r, key (second id r) = Some id.

(** The second step of a pipeline is its third and last call; the lookup
    found the resource and the first step went through on it. *)
Lemma pipeline_run_second_last out t :
  pipeline_run find first second out t ->
  forall pre ev post id,
    t = pre ++ ev :: post ->
    key ev = Some id ->
    pre = [find (inr id); first id None] /\ post = []
    /\ exists r, ev = second id r.
Proof.
  intros Hrun pre ev post id' Ht Hev.
  destruct Hrun; split_trace Ht pre;
    rewrite ?key_find, ?key_first, ?key_second in Hev;
    try discriminate Hev; injection Hev as ->; eauto.
Qed.

End PipelineSteps.

(** X5.  In both upsert pipelines a [Put] is the third and last call:
    before it come exactly the lookup that resolved the target to the
    resource the document is put on and the enable-auth call on that
    resource, answered without an error; the document put is the policy
    text of the object, as it is. *)
Theorem upsert_enables_before_put
  {error : Type} {EM : ErrorModel error} {W : Type} (c : Deps error W)
  f (p : IAMAuthPolicy) (w : W) (pre : list (event error))
  (m : model_IAMAuthPolicy) (r : option error) (post : list (event error)) :
  f = upsertGatewayPolicy c \/ f = upsertRoutePolicy c ->
  trace_of (f p w) = pre ++ EPut m r :: post ->
  ModelPolicy m = Policy (Spec p)
  /\ post = []
  /\ exists find_ev enable_ev,
       pre = [find_ev; enable_ev]
       /\ resolved_id find_ev = Some (ResourceId m)
       /\ is_enable enable_ev = true
       /\ policyMgr_target enable_ev = Some (ResourceId m)
       /\ event_error enable_ev = None.
Proof.
  intros [-> | ->] Ht.
  - destruct (upsertGatewayPolicy_run c p w) as (out & w' & t & Hrun & Hshape).
    rewrite Hrun in Ht. cbn [trace_of snd] in Ht.
    destruct (pipeline_run_second_last
                (EFindServiceNetworkByK8sName (Name (TargetRef (Spec p))))
                EEnableSnIAMAuth
                (fun id => EPut (mkModelPolicy id (Policy (Spec p)))) put_id
                (fun _ => eq_refl) (fun _ _ => eq_refl) (fun _ _ => eq_refl)
                out t Hshape pre (EPut m r) post (ResourceId m) Ht eq_refl)
      as (-> & -> & r' & Hev).
    injection Hev as Hm _.
    split; [now rewrite Hm|]. split; [reflexivity|].
    do 2 eexists. split; [reflexivity|]. repeat split.
  - destruct (upsertRoutePolicy_run c p w) as (out & w' & t & Hrun & Hshape).
    rewrite Hrun in Ht. cbn [trace_of snd] in Ht.
    destruct (pipeline_run_second_last
                (EFindServiceByK8sName
                   (LatticeServiceName c (Name (TargetRef (Spec p))) (Namespace p)))
                EEnableSvcIAMAuth
                (fun id => EPut (mkModelPolicy id (Policy (Spec p)))) put_id
                (fun _ => eq_refl) (fun _ _ => eq_refl) (fun _ _ => eq_refl)
                out t Hshape pre (EPut m r) post (ResourceId m) Ht eq_refl)
      as (-> & -> & r' & Hev).
    injection Hev as Hm _.
    split; [now rewrite Hm|]. split; [reflexivity|].
    do 2 eexists. split; [reflexivity|]. repeat split.
Qed.

Lemma upsert_enables_before_put_witness :
  (upsertRoutePolicy Lattice.healthy = upsertGatewayPolicy Lattice.healthy
   \/ upsertRoutePolicy Lattice.healthy = upsertRoutePolicy Lattice.healthy)
  /\ trace_of (upsertRoutePolicy Lattice.healthy Lattice.deletedRoute
                 (Lattice.worldWith Lattice.deletedRoute))
     = [EFindServiceByK8sName "gw1-default" (inr "svc-456");
        EEnableSvcIAMAuth "svc-456" None]
       ++ EPut (mkModelPolicy "svc-456" "{}") None :: []
  /\ ModelPolicy (mkModelPolicy "svc-456" "{}") = Policy (Spec Lattice.deletedRoute).
Proof.
  split; [right; reflexivity|].
  split; [reflexivity|].
  exact (proj1 (upsert_enables_before_put Lattice.healthy
                  (upsertRoutePolicy Lattice.healthy) Lattice.deletedRoute
                  (Lattice.worldWith Lattice.deletedRoute)
                  [EFindServiceByK8sName "gw1-default" (inr "svc-456");
                   EEnableSvcIAMAuth "svc-456" None]
                  (mkModelPolicy "svc-456" "{}") None []
                  (or_intror eq_refl) eq_refl)).
Defined.

(** X6.  A pipeline returns a nil error only after all three of its calls
    went through: the lookup resolved the target to the identifier that
    is returned, and both calls of the policy manager were made on that
    identifier and answered without an error. *)
Theorem pipeline_success_is_complete
  {error : Type} {EM : ErrorModel error} {W : Type} (c : Deps error W)
  f (p : IAMAuthPolicy) (w : W) (id : string) :
  In f (pipelines c) ->
  outcome_of (f p w) = Returns (id, None) ->
  exists find_ev a b,
    trace_of (f p w) = [find_ev; a; b]
    /\ resolved_id find_ev = Some id
    /\ policyMgr_target a = Some id /\ event_error a = None
    /\ policyMgr_target b = Some id /\ event_error b = None.
Proof.
  intros Hin Hout.
  destruct Hin as [<-|[<-|[<-|[<-|[]]]]].
  - destruct (upsertGatewayPolicy_run c p w) as (out & w' & t & Hrun & Hshape).
    rewrite Hrun in Hout |- *. cbn [outcome_of trace_of fst snd] in *.
    injection Hout as ->. inversion Hshape; subst.
    do 3 eexists. split; [reflexivity|]. repeat split.
  - destruct (deleteGatewayPolicy_run c p w) as (out & w' & t & Hrun & Hshape).
    rewrite Hrun in Hout |- *. cbn [outcome_of trace_of fst snd] in *.
    injection Hout as ->. inversion Hshape; subst.
    do 3 eexists. split; [reflexivity|]. repeat split.
  - destruct (upsertRoutePolicy_run c p w) as (out & w' & t & Hrun & Hshape).
    rewrite Hrun in Hout |- *. cbn [outcome_of trace_of fst snd] in *.
    injection Hout as ->. inversion Hshape; subst.
    do 3 eexists. split; [reflexivity|]. repeat split.
  - destruct (deleteRoutePolicy_run c p w) as (out & w' & t & Hrun & Hshape).
    rewrite Hrun in Hout |- *. cbn [outcome_of trace_of fst snd] in *.
    injection Hout as ->. inversion Hshape; subst.
    do 3 eexists. split; [reflexivity|]. repeat split.
Qed.

Lemma pipeline_success_is_complete_witness :
  In (upsertGatewayPolicy Lattice.healthy) (pipelines Lattice.healthy)
  /\ outcome_of (upsertGatewayPolicy Lattice.healthy Lattice.newGateway
                   (Lattice.worldWith Lattice.newGateway))
     = Returns ("sn-123", None)
  /\ exists find_ev a b : event Lattice.error,
       trace_of (upsertGatewayPolicy Lattice.healthy Lattice.newGateway
                   (Lattice.worldWith Lattice.newGateway)) = [find_ev; a; b]
       /\ resolved_id find_ev = Some "sn-123"
       /\ policyMgr_target a = Some "sn-123" /\ event_error a = None
       /\ policyMgr_target b = Some "sn-123" /\ event_error b = None.
Proof.
  assert (Hin : In (upsertGatewayPolicy Lattice.healthy) (pipelines Lattice.healthy))
    by (left; reflexivity).
  assert (Hout : outcome_of (upsertGatewayPolicy Lattice.healthy Lattice.newGateway
                               (Lattice.worldWith Lattice.newGateway))
                 = Returns ("sn-123", None)) by (vm_compute; reflexivity).
  split; [exact Hin|]. split; [exact Hout|].
  exact (pipeline_success_is_complete Lattice.healthy _ Lattice.newGateway
           (Lattice.worldWith Lattice.newGateway) "sn-123" Hin Hout).
Defined.

(** X7.  Every selected pipeline begins with its one lookup and makes no
    other: for kind Gateway the service network named by the target
    reference, as given; for the route kinds the service whose name is
    [LatticeServiceName] of the target name and the namespace of the
    policy itself. *)
Theorem pipelines_start_with_lookup
  {error : Type} {EM : ErrorModel error} {W : Type} (c : Deps error W)
  (kind : string) (isDelete : bool) f (p : IAMAuthPolicy) (w : W) :
  reconcileFunc c kind isDelete = Some f ->
  exists r rest,
    trace_of (f p w)
    = (if String.eqb kind "Gateway"
       then EFindServiceNetworkByK8sName (Name (TargetRef (Spec p))) r
       else EFindServiceByK8sName
              (LatticeServiceName c (Name (TargetRef (Spec p))) (Namespace p)) r)
      :: rest
    /\ Forall (fun ev => is_resolver_call ev = false) rest.
Proof.
  unfold reconcileFunc.
  destruct (String.eqb kind "Gateway");
    [|destruct (String.eqb kind "HTTPRoute" || String.eqb kind "GRPCRoute");
      [|discriminate]];
    destruct isDelete; intros Hsel; injection Hsel as <-.
  - destruct (deleteGatewayPolicy_run c p w) as (out & w' & t & -> & Hshape).
    destruct Hshape; do 2 eexists; (split; [reflexivity|]); repeat constructor.
  - destruct (upsertGatewayPolicy_run c p w) as (out & w' & t & -> & Hshape).
    destruct Hshape; do 2 eexists; (split; [reflexivity|]); repeat constructor.
  - destruct (deleteRoutePolicy_run c p w) as (out & w' & t & -> & Hshape).
    destruct Hshape; do 2 eexists; (split; [reflexivity|]); repeat constructor.
  - destruct (upsertRoutePolicy_run c p w) as (out & w' & t & -> & Hshape).
    destruct Hshape; do 2 eexists; (split; [reflexivity|]); repeat constructor.
Qed.

Lemma pipelines_start_with_lookup_witness :
  reconcileFunc Lattice.healthy "GRPCRoute" true = Some (deleteRoutePolicy Lattice.healthy)
  /\ exists r rest,
       trace_of (deleteRoutePolicy Lattice.healthy Lattice.deletedRouteBare
                   (Lattice.worldWith Lattice.deletedRouteBare))
       = EFindServiceByK8sName "gw1-default" r :: rest
       /\ Forall (fun ev : event Lattice.error => is_resolver_call ev = false) rest.
Proof.
  assert (Hsel : reconcileFunc Lattice.healthy "GRPCRoute" true
                 = Some (deleteRoutePolicy Lattice.healthy)) by reflexivity.
  split; [exact Hsel|].
  exact (pipelines_start_with_lookup Lattice.healthy "GRPCRoute" true _
           Lattice.deletedRouteBare (Lattice.worldWith Lattice.deletedRouteBare) Hsel).
Defined.

(** ** More on [handleFinalizer] *)

Lemma filter_eqb_absent (f : string) (l : list string) :
  existsb (String.eqb f) l = false ->
  List.filter (fun e => negb (String.eqb f e)) l = l.
Proof.
  induction l as [|x l IH]; cbn [existsb List.filter]; [reflexivity|].
  destruct (String.eqb f x); cbn [orb negb]; [discriminate|].
  intros H. now rewrite IH.
Qed.

Lemma filter_twice {A : Type} (P : A -> bool) (l : list A) :
  List.filter P (List.filter P l) = List.filter P l.
Proof.
  induction l as [|x l IH]; cbn [List.filter]; [reflexivity|].
  destruct (P x) eqn:E; cbn [List.filter]; [rewrite E; now f_equal|exact IH].
Qed.

Lemma filter_marker_appended (f : string) (l : list string) :
  List.filter (fun e => negb (String.eqb f e)) (l ++ [f])
  = List.filter (fun e => negb (String.eqb f e)) l.
Proof.
  rewrite List.filter_app. cbn [List.filter].
  rewrite String.eqb_refl. cbn [negb]. apply app_nil_r.
Qed.

(** X8.  [handleFinalizer] changes nothing but the cleanup marker: the
    other finalizers of the object are kept, in their order, and so are
    its spec, annotations, deletion timestamp, namespace and name. *)
Theorem handleFinalizer_keeps_the_rest :
  forall o : IAMAuthPolicy,
    List.filter (fun e => negb (String.eqb authPolicyFinalizer e))
                (Finalizers (handleFinalizer o))
    = List.filter (fun e => negb (String.eqb authPolicyFinalizer e)) (Finalizers o)
    /\ Spec (handleFinalizer o) = Spec o
    /\ Annotations (handleFinalizer o) = Annotations o
    /\ DeletionTimestamp (handleFinalizer o) = DeletionTimestamp o
    /\ Namespace (handleFinalizer o) = Namespace o
    /\ ObjName (handleFinalizer o) = ObjName o.
Proof.
  intros o. split.
  - rewrite handleFinalizer_cases. generalize authPolicyFinalizer. intros f.
    destruct (markerOf o), (deletionRequested o); cbn [SetFinalizers Finalizers];
      rewrite ?filter_marker_appended, ?filter_twice; reflexivity.
  - repeat split.
    + apply handleFinalizer_Spec.
    + apply handleFinalizer_Annotations.
    + apply handleFinalizer_DeletionTimestamp.
    + apply handleFinalizer_Namespace.
    + apply handleFinalizer_ObjName.
Qed.

(** X9.  [handleFinalizer] never duplicates a finalizer: on an object
    whose finalizers are pairwise distinct they stay so, the marker being
    appended only when it is not there. *)
Theorem handleFinalizer_NoDup (o : IAMAuthPolicy) :
  List.NoDup (Finalizers o) -> List.NoDup (Finalizers (handleFinalizer o)).
Proof.
  intros Hnd. unfold handleFinalizer, AddFinalizer, RemoveFinalizer, ContainsFinalizer.
  generalize authPolicyFinalizer. intros f.
  destruct (Time_IsZero _), (existsb (String.eqb f) (Finalizers o)) eqn:E;
    cbn [negb SetFinalizers Finalizers]; try exact Hnd.
  - apply List.NoDup_app; [exact Hnd|repeat constructor; intros []|].
    intros a Ha [<-|[]].
    assert (existsb (String.eqb f) (Finalizers o) = true) as Habs.
    { apply existsb_exists. exists f. split; [exact Ha|apply String.eqb_refl]. }
    congruence.
  - now apply List.NoDup_filter.
Qed.

(** The marker is there already, next to the finalizer of another
    controller, and the policy is not under deletion: the marker is not
    appended a second time. *)
Lemma handleFinalizer_NoDup_witness :
  List.NoDup (Finalizers Lattice.markedGateway)
  /\ Finalizers (handleFinalizer Lattice.markedGateway)
     = [authPolicyFinalizer; "other"]
  /\ List.NoDup (Finalizers (handleFinalizer Lattice.markedGateway)).
Proof.
  assert (Hnd : List.NoDup (Finalizers Lattice.markedGateway)).
  { constructor; [intros [H|[]]; discriminate H|].
    constructor; [intros []|constructor]. }
  split; [exact Hnd|]. split; [reflexivity|].
  exact (handleFinalizer_NoDup Lattice.markedGateway Hnd).
Defined.

(** X10.  The marker over the life of an object.  On an object without
    the marker that is not under deletion [handleFinalizer] appends the
    marker to the finalizers, which then hold it.  Once a deletion
    timestamp other than the zero time is set on that object, the next
    [handleFinalizer] finds the marker, takes it off, and what is left is
    exactly the original object with the timestamp: the finalizers are
    the original ones again. *)
Theorem handleFinalizer_round_trip (o : IAMAuthPolicy) (t : Time) :
  markerOf o = absent ->
  deletionRequested o = false ->
  t <> 0 ->
  Finalizers (handleFinalizer o) = Finalizers o ++ [authPolicyFinalizer]
  /\ markerOf (handleFinalizer o) = present
  /\ markerOf (SetDeletionTimestamp (handleFinalizer o) (Some t)) = present
  /\ markerOf (handleFinalizer (SetDeletionTimestamp (handleFinalizer o) (Some t)))
     = absent
  /\ handleFinalizer (SetDeletionTimestamp (handleFinalizer o) (Some t))
     = SetDeletionTimestamp o (Some t).
Proof.
  intros Hmark Hdel Ht.
  assert (Habs : existsb (String.eqb authPolicyFinalizer) (Finalizers o) = false).
  { unfold markerOf, ContainsFinalizer in Hmark.
    destruct (existsb _ _); [discriminate|reflexivity]. }
  assert (Hadd : handleFinalizer o
                 = SetFinalizers o (Finalizers o ++ [authPolicyFinalizer])).
  { now rewrite (handleFinalizer_cases o), Hmark, Hdel. }
  assert (Hdel' : deletionRequested
                    (SetDeletionTimestamp (handleFinalizer o) (Some t)) = true).
  { unfold deletionRequested, SetDeletionTimestamp.
    cbn [DeletionTimestamp Time_IsZero]. apply Z.eqb_neq in Ht. now rewrite Ht. }
  assert (Hpres : markerOf (SetDeletionTimestamp (handleFinalizer o) (Some t))
                  = present).
  { rewrite Hadd. unfold markerOf, ContainsFinalizer, SetDeletionTimestamp,
      SetFinalizers. cbn [Finalizers]. now rewrite existsb_eqb_app. }
  split; [now rewrite Hadd|].
  split; [now rewrite handleFinalizer_marker, Hmark, Hdel|].
  split; [exact Hpres|].
  split; [now rewrite handleFinalizer_marker, Hpres, Hdel'|].
  rewrite handleFinalizer_cases, Hpres, Hdel', Hadd.
  unfold SetDeletionTimestamp, SetFinalizers.
  cbn [Finalizers DeletionTimestamp Namespace ObjName Annotations Spec].
  rewrite filter_marker_appended, (filter_eqb_absent _ _ Habs).
  reflexivity.
Qed.

(** A policy held by another controller's finalizer: the marker is
    appended after it, and taken off again once the deletion timestamp
    is set. *)
Lemma handleFinalizer_round_trip_witness :
  markerOf Lattice.ownedGateway = absent
  /\ deletionRequested Lattice.ownedGateway = false
  /\ 5 <> 0
  /\ Finalizers (handleFinalizer Lattice.ownedGateway)
     = ["other"] ++ [authPolicyFinalizer]
  /\ markerOf (handleFinalizer Lattice.ownedGateway) = present
  /\ markerOf (SetDeletionTimestamp (handleFinalizer Lattice.ownedGateway) (Some 5))
     = present
  /\ markerOf (handleFinalizer
                 (SetDeletionTimestamp (handleFinalizer Lattice.ownedGateway) (Some 5)))
     = absent
  /\ handleFinalizer (SetDeletionTimestamp (handleFinalizer Lattice.ownedGateway) (Some 5))
     = SetDeletionTimestamp Lattice.ownedGateway (Some 5).
Proof.
  assert (Hmark : markerOf Lattice.ownedGateway = absent) by reflexivity.
  assert (Hdel : deletionRequested Lattice.ownedGateway = false) by reflexivity.
  assert (Ht : 5 <> 0) by discriminate.
  repeat (split; [assumption|]).
  exact (handleFinalizer_round_trip Lattice.ownedGateway 5 Hmark Hdel Ht).
Defined.

(** ** What a reconcile never does *)

Lemma pipeline_run_Forall {error : Type}
  (find : error + string -> event error)
  (first second : string -> option error -> event error)
  (P : event error -> Prop) out t :
  (forall r, P (find r)) ->
  (forall id r, P (first id r)) ->
  (forall id r, P (second id r)) ->
  pipeline_run find first second out t ->
  Forall P t.
Proof.
  intros Hfind Hfirst Hsecond Hrun.
  destruct Hrun; repeat constructor; auto.
Qed.

Lemma pipeline_run_length {error : Type}
  (find : error + string -> event error)
  (first second : string -> option error -> event error) out t :
  pipeline_run find first second out t -> (length t <= 3)%nat.
Proof. intros Hrun. destruct Hrun; cbn [length]; lia. Qed.

Section ReconcileCases.
Context {error : Type} {EM : ErrorModel error} {W : Type}.
Variable c : Deps error W.

(** Every run of [Reconcile] is of one of four kinds. *)
Lemma Reconcile_cases (req : NamespacedName) (w : W) :
  (exists e w1,
      client_Get c req w = (inl e, w1)
      /\ Reconcile c req w
         = (Returns (Result_zero, IgnoreNotFound e), w1, [EGet req (inl e)]))
  \/ (exists p w1,
         client_Get c req w = (inr p, w1)
         /\ reconcileFunc c (Kind (TargetRef (Spec p))) (deletionRequested p) = None
         /\ Reconcile c req w
            = (Returns (mkResult false time_Hour, None), w1, [EGet req (inr p)]))
  \/ (exists p w1 f id oe w2 t,
         client_Get c req w = (inr p, w1)
         /\ reconcileFunc c (Kind (TargetRef (Spec p))) (deletionRequested p) = Some f
         /\ f (handleFinalizer p) w1 = (Returns (id, oe), w2, t)
         /\ match oe, Annotations p with
            | Some e, _ =>
                Reconcile c req w
                = (Returns (if services_IsNotFoundError e
                            then (mkResult false (time_Second * 30), None)
                            else (Result_zero, Some e)), w2, EGet req (inr p) :: t)
            | None, None =>
                Reconcile c req w = (Panics, w2, EGet req (inr p) :: t)
            | None, Some m =>
                exists q r w3,
                  Reconcile c req w
                  = (Returns (Result_zero, r), w3,
                     EGet req (inr p) :: t ++ [EUpdate q r])
            end).
Proof.
  destruct (client_Get c req w) as [[e|p] w1] eqn:Hget.
  { left. exists e, w1. split; [reflexivity|].
    now apply Reconcile_get_failed. }
  right.
  rewrite (Reconcile_fetched c req w w1 p Hget).
  pose proof (dispatch_cases c (handleFinalizer p) w1) as Hd.
  rewrite handleFinalizer_Spec, deletionRequested_handleFinalizer,
    handleFinalizer_Annotations in Hd.
  destruct (reconcileFunc c (Kind (TargetRef (Spec p))) (deletionRequested p))
    as [f|] eqn:Hsel.
  - right. destruct Hd as (id & oe & w2 & t & Hf & Hd).
    exists p, w1, f, id, oe, w2, t.
    split; [reflexivity|]. split; [exact Hsel|]. split; [exact Hf|].
    destruct oe as [e|]; [now rewrite Hd|].
    destruct (Annotations p) as [m|]; [|now rewrite Hd].
    cbn zeta in Hd. rewrite Hd. eauto.
  - left. exists p, w1. rewrite Hd. auto.
Qed.

(** A property of calls that holds of [Get], of [Update] and of the calls
    of the selected pipeline holds of every call of a reconcile. *)
Lemma Reconcile_trace_Forall (P : event error -> Prop) (req : NamespacedName) (w : W) :
  (forall r, P (EGet req r)) ->
  (forall q r, P (EUpdate q r)) ->
  (forall p w1 f,
      client_Get c req w = (inr p, w1) ->
      reconcileFunc c (Kind (TargetRef (Spec p))) (deletionRequested p) = Some f ->
      Forall P (trace_of (f (handleFinalizer p) w1))) ->
  Forall P (trace_of (Reconcile c req w)).
Proof.
  intros Hget Hupd Hpipe.
  destruct (Reconcile_cases req w)
    as [(e & w1 & _ & ->)
       |[(p & w1 & _ & _ & ->)
        |(p & w1 & f & id & oe & w2 & t & Hg & Hsel & Hf & Hrun)]];
    cbn [trace_of snd]; try (repeat constructor; apply Hget).
  specialize (Hpipe p w1 f Hg Hsel). rewrite Hf in Hpipe. cbn [trace_of snd] in Hpipe.
  destruct oe as [e|]; [|destruct (Annotations p) as [m|]].
  - rewrite Hrun. cbn [trace_of snd]. constructor; auto.
  - destruct Hrun as (q & r & w3 & ->). cbn [trace_of snd].
    constructor; [apply Hget|]. apply Forall_app. split; [exact Hpipe|].
    repeat constructor. apply Hupd.
  - rewrite Hrun. cbn [trace_of snd]. constructor; auto.
Qed.

End ReconcileCases.

Ltac by_selected_pipeline c p w Hsel :=
  unfold reconcileFunc in Hsel;
  destruct (String.eqb (Kind (TargetRef (Spec p))) "Gateway");
    [|destruct (String.eqb (Kind (TargetRef (Spec p))) "HTTPRoute"
                || String.eqb (Kind (TargetRef (Spec p))) "GRPCRoute");
      [|discriminate Hsel]];
  destruct (deletionRequested p); injection Hsel as <-;
  [ destruct (deleteGatewayPolicy_run c (handleFinalizer p) w) as (? & ? & ? & -> & ?)
  | destruct (upsertGatewayPolicy_run c (handleFinalizer p) w) as (? & ? & ? & -> & ?)
  | destruct (deleteRoutePolicy_run c (handleFinalizer p) w) as (? & ? & ? & -> & ?)
  | destruct (upsertRoutePolicy_run c (handleFinalizer p) w) as (? & ? & ? & -> & ?) ];
  cbn [trace_of snd];
  (eapply pipeline_run_Forall; [..|eassumption]; intros; reflexivity).

(** X11.  A reconcile stays on the kind of its target: for a policy on a
    Gateway no call is about a service (no service lookup, no enable or
    disable of a service's auth), and for any other policy no call is
    about a service network. *)
Theorem reconcile_stays_on_the_target_kind
  {error : Type} {EM : ErrorModel error} {W : Type} (c : Deps error W)
  (req : NamespacedName) (w w1 : W) (p : IAMAuthPolicy) :
  client_Get c req w = (inr p, w1) ->
  Forall (fun ev => if String.eqb (Kind (TargetRef (Spec p))) "Gateway"
                    then is_svc_call ev = false
                    else is_sn_call ev = false)
         (trace_of (Reconcile c req w)).
Proof.
  intros Hget. apply Reconcile_trace_Forall.
  - intros r. destruct (String.eqb _ _); reflexivity.
  - intros q r. destruct (String.eqb _ _); reflexivity.
  - intros p' w1' f Hget' Hsel. rewrite Hget in Hget'. injection Hget' as <- <-.
    by_selected_pipeline c p w1 Hsel.
Qed.

Lemma reconcile_stays_on_the_target_kind_witness :
  client_Get Lattice.healthy Lattice.request0 (Lattice.worldWith Lattice.deletedRoute)
  = (inr Lattice.deletedRoute, Lattice.worldWith Lattice.deletedRoute)
  /\ Forall (fun ev : event Lattice.error => is_sn_call ev = false)
            (trace_of (Reconcile Lattice.healthy Lattice.request0
                         (Lattice.worldWith Lattice.deletedRoute))).
Proof.
  assert (Hget : client_Get Lattice.healthy Lattice.request0
                   (Lattice.worldWith Lattice.deletedRoute)
                 = (inr Lattice.deletedRoute, Lattice.worldWith Lattice.deletedRoute))
    by reflexivity.
  split; [exact Hget|].
  exact (reconcile_stays_on_the_target_kind Lattice.healthy Lattice.request0 _ _
           Lattice.deletedRoute Hget).
Defined.

(** X12.  A reconcile stays on its direction: for a policy that is not
    under deletion no call detaches a policy document or disables auth,
    and for a policy under deletion no call enables auth or puts a
    document. *)
Theorem reconcile_stays_on_its_direction
  {error : Type} {EM : ErrorModel error} {W : Type} (c : Deps error W)
  (req : NamespacedName) (w w1 : W) (p : IAMAuthPolicy) :
  client_Get c req w = (inr p, w1) ->
  Forall (fun ev => if deletionRequested p
                    then is_upsert_call ev = false
                    else is_cleanup_call ev = false)
         (trace_of (Reconcile c req w)).
Proof.
  intros Hget. apply Reconcile_trace_Forall.
  - intros r. destruct (deletionRequested p); reflexivity.
  - intros q r. destruct (deletionRequested p); reflexivity.
  - intros p' w1' f Hget' Hsel. rewrite Hget in Hget'. injection Hget' as <- <-.
    by_selected_pipeline c p w1 Hsel.
Qed.

Lemma reconcile_stays_on_its_direction_witness :
  client_Get Lattice.healthy Lattice.request0 (Lattice.worldWith Lattice.annotatedGateway)
  = (inr Lattice.annotatedGateway, Lattice.worldWith Lattice.annotatedGateway)
  /\ Forall (fun ev : event Lattice.error => is_cleanup_call ev = false)
            (trace_of (Reconcile Lattice.healthy Lattice.request0
                         (Lattice.worldWith Lattice.annotatedGateway))).
Proof.
  assert (Hget : client_Get Lattice.healthy Lattice.request0
                   (Lattice.worldWith Lattice.annotatedGateway)
                 = (inr Lattice.annotatedGateway,
                    Lattice.worldWith Lattice.annotatedGateway)) by reflexivity.
  split; [exact Hget|].
  exact (reconcile_stays_on_its_direction Lattice.healthy Lattice.request0 _ _
           Lattice.annotatedGateway Hget).
Defined.

(** ** The results of a reconcile *)

(** X13.  Whatever [Reconcile] returns, the [Requeue] flag is unset and
    the requeue delay is zero, 30 seconds or one hour; a delay is asked
    for only together with a nil error, so an error is never returned
    with a delay of the controller's own. *)
Theorem Reconcile_requeue_policy
  {error : Type} {EM : ErrorModel error} {W : Type} (c : Deps error W)
  (req : NamespacedName) (w : W) (res : Result) (err : option error) :
  outcome_of (Reconcile c req w) = Returns (res, err) ->
  Requeue res = false
  /\ (RequeueAfter res = 0
      \/ (RequeueAfter res = 30 * 1000000000 /\ err = None)
      \/ (RequeueAfter res = 3600 * 1000000000 /\ err = None)).
Proof.
  intros Hout.
  destruct (Reconcile_cases c req w)
    as [(e & w1 & _ & Hrun)
       |[(p & w1 & _ & _ & Hrun)
        |(p & w1 & f & id & oe & w2 & t & _ & _ & _ & Hrun)]].
  - rewrite Hrun in Hout. injection Hout as <- _. auto.
  - rewrite Hrun in Hout. injection Hout as <- <-. auto.
  - destruct oe as [e|]; [|destruct (Annotations p) as [m|]].
    + rewrite Hrun in Hout. cbn [outcome_of fst] in Hout.
      destruct (services_IsNotFoundError e); injection Hout as <- <-; auto.
    + destruct Hrun as (q & r & w3 & Hrun).
      rewrite Hrun in Hout. injection Hout as <- _. auto.
    + rewrite Hrun in Hout. discriminate Hout.
Qed.

Lemma Reconcile_requeue_policy_witness :
  outcome_of (Reconcile Lattice.healthy Lattice.request0
                (Lattice.worldWith Lattice.missingGateway))
  = Returns (mkResult false 30000000000, None)
  /\ Requeue (mkResult false 30000000000) = false
  /\ (RequeueAfter (mkResult false 30000000000) = 0
      \/ (RequeueAfter (mkResult false 30000000000) = 30 * 1000000000
          /\ @None Lattice.error = None)
      \/ (RequeueAfter (mkResult false 30000000000) = 3600 * 1000000000
          /\ @None Lattice.error = None)).
Proof.
  assert (Hout : outcome_of (Reconcile Lattice.healthy Lattice.request0
                               (Lattice.worldWith Lattice.missingGateway))
                 = Returns (mkResult false 30000000000, None))
    by (vm_compute; reflexivity).
  split; [exact Hout|].
  exact (Reconcile_requeue_policy Lattice.healthy Lattice.request0 _ _ _ Hout).
Defined.

Lemma pipeline_run_bounded {error : Type}
  (find : error + string -> event error)
  (first second : string -> option error -> event error) out t :
  (forall r, is_Get (find r) = false /\ is_policyMgr_call (find r) = false) ->
  (forall id r, is_Get (first id r) = false) ->
  (forall id r, is_Get (second id r) = false) ->
  pipeline_run find first second out t ->
  (length t <= 3)%nat
  /\ Forall (fun ev => is_Get ev = false) t
  /\ (length (List.filter is_policyMgr_call t) <= 2)%nat.
Proof.
  intros Hfind Hfirst Hsecond Hrun.
  split; [exact (pipeline_run_length _ _ _ _ _ Hrun)|].
  split.
  - eapply pipeline_run_Forall; [..|exact Hrun]; auto. intros r. apply Hfind.
  - destruct Hrun; cbn [List.filter];
      rewrite ?(proj2 (Hfind _));
      repeat match goal with
             | |- context [if ?b then _ else _] => destruct b
             end; cbn [length]; lia.
Qed.

Lemma pipelines_bounded
  {error : Type} {EM : ErrorModel error} {W : Type} (c : Deps error W)
  f (p : IAMAuthPolicy) (w : W) :
  In f (pipelines c) ->
  (length (trace_of (f p w)) <= 3)%nat
  /\ Forall (fun ev => is_Get ev = false) (trace_of (f p w))
  /\ (length (List.filter is_policyMgr_call (trace_of (f p w))) <= 2)%nat.
Proof.
  intros [<-|[<-|[<-|[<-|[]]]]].
  - destruct (upsertGatewayPolicy_run c p w) as (out & w' & t & -> & Hshape).
    eapply pipeline_run_bounded; [..|exact Hshape]; intros; auto.
  - destruct (deleteGatewayPolicy_run c p w) as (out & w' & t & -> & Hshape).
    eapply pipeline_run_bounded; [..|exact Hshape]; intros; auto.
  - destruct (upsertRoutePolicy_run c p w) as (out & w' & t & -> & Hshape).
    eapply pipeline_run_bounded; [..|exact Hshape]; intros; auto.
  - destruct (deleteRoutePolicy_run c p w) as (out & w' & t & -> & Hshape).
    eapply pipeline_run_bounded; [..|exact Hshape]; intros; auto.
Qed.

(** X15.  A reconcile is a bounded, straight-line exchange: its first
    call is the one [Get]; at most four calls follow, none of them a
    [Get] and at most two of them calls of the policy manager.  Nothing
    is retried in process. *)
Theorem Reconcile_calls_bounded
  {error : Type} {EM : ErrorModel error} {W : Type} (c : Deps error W)
  (req : NamespacedName) (w : W) :
  exists r rest,
    trace_of (Reconcile c req w) = EGet req r :: rest
    /\ (length rest <= 4)%nat
    /\ Forall (fun ev => is_Get ev = false) rest
    /\ (length (List.filter is_policyMgr_call rest) <= 2)%nat.
Proof.
  destruct (Reconcile_cases c req w)
    as [(e & w1 & _ & Hrun)
       |[(p & w1 & _ & _ & Hrun)
        |(p & w1 & f & id & oe & w2 & t & _ & Hsel & Hf & Hrun)]].
  - rewrite Hrun. do 2 eexists. split; [reflexivity|].
    cbn [length List.filter]. repeat split; try lia. constructor.
  - rewrite Hrun. do 2 eexists. split; [reflexivity|].
    cbn [length List.filter]. repeat split; try lia. constructor.
  - destruct (pipelines_bounded c f (handleFinalizer p) w1
                (reconcileFunc_pipelines c _ _ f Hsel)) as (Hlen & Hget & Hmgr).
    rewrite Hf in Hlen, Hget, Hmgr. cbn [trace_of snd] in Hlen, Hget, Hmgr.
    destruct oe as [e|]; [|destruct (Annotations p) as [m|]].
    + rewrite Hrun. do 2 eexists. split; [reflexivity|].
      repeat split; [lia|assumption|assumption].
    + destruct Hrun as (q & r & w3 & ->). do 2 eexists. split; [reflexivity|].
      split; [rewrite length_app; cbn [length]; lia|].
      split; [apply Forall_app; split; [assumption|repeat constructor]|].
      rewrite List.filter_app. cbn [List.filter is_policyMgr_call].
      rewrite app_nil_r. exact Hmgr.
    + rewrite Hrun. do 2 eexists. split; [reflexivity|].
      repeat split; [lia|assumption|assumption].
Qed.

(** ** Edge runs *)

(** X16.  When the lookup of the selected pipeline fails (the target is
    not there yet), the pipeline stops at once: the lookup is its only
    call, nothing is written to the cloud, and it returns the empty
    identifier with the error of the lookup. *)
Theorem failed_lookup_writes_nothing
  {error : Type} {EM : ErrorModel error} {W : Type} (c : Deps error W)
  (kind : string) (isDelete : bool) f (p : IAMAuthPolicy) (w : W) (e : error) :
  reconcileFunc c kind isDelete = Some f ->
  fst ((if String.eqb kind "Gateway"
        then FindServiceNetworkByK8sName c (Name (TargetRef (Spec p)))
        else FindServiceByK8sName c
               (LatticeServiceName c (Name (TargetRef (Spec p))) (Namespace p))) w)
  = inl e ->
  f p w
  = (Returns ("", Some e),
     snd ((if String.eqb kind "Gateway"
           then FindServiceNetworkByK8sName c (Name (TargetRef (Spec p)))
           else FindServiceByK8sName c
                  (LatticeServiceName c (Name (TargetRef (Spec p))) (Namespace p))) w),
     [if String.eqb kind "Gateway"
      then EFindServiceNetworkByK8sName (Name (TargetRef (Spec p))) (inl e)
      else EFindServiceByK8sName
             (LatticeServiceName c (Name (TargetRef (Spec p))) (Namespace p)) (inl e)]).
Proof.
  unfold reconcileFunc.
  destruct (String.eqb kind "Gateway");
    [|destruct (String.eqb kind "HTTPRoute" || String.eqb kind "GRPCRoute");
      [|discriminate]];
    destruct isDelete; intros Hsel Hlook; injection Hsel as <-.
  - unfold deleteGatewayPolicy; unfold_ctl.
    destruct (FindServiceNetworkByK8sName c _ w) as [[e'|id] w1];
      cbn [fst snd] in *; [injection Hlook as ->; reflexivity|discriminate].
  - unfold upsertGatewayPolicy; unfold_ctl.
    destruct (FindServiceNetworkByK8sName c _ w) as [[e'|id] w1];
      cbn [fst snd] in *; [injection Hlook as ->; reflexivity|discriminate].
  - unfold deleteRoutePolicy; unfold_ctl.
    destruct (FindServiceByK8sName c _ w) as [[e'|id] w1];
      cbn [fst snd] in *; [injection Hlook as ->; reflexivity|discriminate].
  - unfold upsertRoutePolicy; unfold_ctl.
    destruct (FindServiceByK8sName c _ w) as [[e'|id] w1];
      cbn [fst snd] in *; [injection Hlook as ->; reflexivity|discriminate].
Qed.

Lemma failed_lookup_writes_nothing_witness :
  reconcileFunc Lattice.healthy "Gateway" false = Some (upsertGatewayPolicy Lattice.healthy)
  /\ fst (FindServiceNetworkByK8sName Lattice.healthy "gw2"
            (Lattice.worldWith Lattice.missingGateway))
     = inl (Lattice.NotFound "gw2")
  /\ upsertGatewayPolicy Lattice.healthy Lattice.missingGateway
                         (Lattice.worldWith Lattice.missingGateway)
     = (Returns ("", Some (Lattice.NotFound "gw2")),
        Lattice.worldWith Lattice.missingGateway,
        [EFindServiceNetworkByK8sName "gw2" (inl (Lattice.NotFound "gw2"))]).
Proof.
  assert (Hsel : reconcileFunc Lattice.healthy "Gateway" false
                 = Some (upsertGatewayPolicy Lattice.healthy)) by reflexivity.
  assert (Hlook : fst (FindServiceNetworkByK8sName Lattice.healthy "gw2"
                         (Lattice.worldWith Lattice.missingGateway))
                  = inl (Lattice.NotFound "gw2")) by reflexivity.
  split; [exact Hsel|]. split; [exact Hlook|].
  exact (failed_lookup_writes_nothing Lattice.healthy "Gateway" false _
           Lattice.missingGateway (Lattice.worldWith Lattice.missingGateway)
           (Lattice.NotFound "gw2") Hsel Hlook).
Defined.

(** X17.  Whenever [Get] hands back an object whose annotations map is
    nil and the selected pipeline returns without an error, [Reconcile]
    panics after the pipeline has run: the calls of the pipeline have
    been made, the world is the one they left, and [Update] is not
    reached. *)
Theorem Reconcile_panics_after_the_pipeline
  {error : Type} {EM : ErrorModel error} {W : Type} (c : Deps error W)
  (req : NamespacedName) (w w1 : W) (p : IAMAuthPolicy) f (id : string) :
  client_Get c req w = (inr p, w1) ->
  reconcileFunc c (Kind (TargetRef (Spec p))) (deletionRequested p) = Some f ->
  outcome_of (f (handleFinalizer p) w1) = Returns (id, None) ->
  Annotations p = None ->
  Reconcile c req w
  = (Panics, world_of (f (handleFinalizer p) w1),
     EGet req (inr p) :: trace_of (f (handleFinalizer p) w1))
  /\ Forall (fun ev => is_Update ev = false) (trace_of (Reconcile c req w)).
Proof.
  intros Hget Hsel Hout Ha.
  pose proof (pipelines_no_update c f (handleFinalizer p) w1
                (reconcileFunc_pipelines c _ _ f Hsel)) as Hno.
  destruct (f (handleFinalizer p) w1) as [[o w2] t] eqn:Hf.
  cbn [outcome_of world_of trace_of fst snd] in *. subst o.
  rewrite (Reconcile_nil_annotations c req w w1 w2 p f id t Hget Hsel Hf Ha).
  split; [reflexivity|]. constructor; [reflexivity|exact Hno].
Qed.

Lemma Reconcile_panics_after_the_pipeline_witness :
  client_Get Lattice.healthy Lattice.request0 (Lattice.worldWith Lattice.newGateway)
  = (inr Lattice.newGateway, Lattice.worldWith Lattice.newGateway)
  /\ reconcileFunc Lattice.healthy (Kind (TargetRef (Spec Lattice.newGateway)))
                   (deletionRequested Lattice.newGateway)
     = Some (upsertGatewayPolicy Lattice.healthy)
  /\ outcome_of (upsertGatewayPolicy Lattice.healthy (handleFinalizer Lattice.newGateway)
                   (Lattice.worldWith Lattice.newGateway))
     = Returns ("sn-123", None)
  /\ Annotations Lattice.newGateway = None
  /\ Forall (fun ev => is_Update ev = false)
            (trace_of (Reconcile Lattice.healthy Lattice.request0
                         (Lattice.worldWith Lattice.newGateway))).
Proof.
  assert (Hget : client_Get Lattice.healthy Lattice.request0
                   (Lattice.worldWith Lattice.newGateway)
                 = (inr Lattice.newGateway, Lattice.worldWith Lattice.newGateway))
    by reflexivity.
  assert (Hsel : reconcileFunc Lattice.healthy
                   (Kind (TargetRef (Spec Lattice.newGateway)))
                   (deletionRequested Lattice.newGateway)
                 = Some (upsertGatewayPolicy Lattice.healthy)) by reflexivity.
  assert (Hout : outcome_of (upsertGatewayPolicy Lattice.healthy
                               (handleFinalizer Lattice.newGateway)
                               (Lattice.worldWith Lattice.newGateway))
                 = Returns ("sn-123", None)) by (vm_compute; reflexivity).
  assert (Ha : Annotations Lattice.newGateway = None) by reflexivity.
  repeat (split; [assumption|]).
  exact (proj2 (Reconcile_panics_after_the_pipeline Lattice.healthy Lattice.request0
                  _ _ Lattice.newGateway _ "sn-123" Hget Hsel Hout Ha)).
Defined.
